(** * Sitronix ST7703 panel driver: lifecycle callbacks and init sequences

    A shallow embedding of drivers/gpu/drm/panel/panel-sitronix-st7703.c.
    The driver's callbacks ([st7703_prepare], [st7703_enable],
    [st7703_disable], [st7703_unprepare]) and the per-panel init sequences
    are written in a small state monad with C's early [return]; every call
    the driver makes into the kernel (GPIO, regulators, DSI host, sleeping)
    is recorded, with the value it returned, in a trace. *)

From Stdlib Require Import ZArith List String Bool Lia.
Import ListNotations.
Local Open Scope Z_scope.

(** ** Data model *)

Module Kernel.

(** The two supplies the driver asks for in [st7703_probe]. *)
Inductive supply := vcc_supply | iovcc_supply.

(** A [struct regulator *] as the driver sees it: a real handle, NULL
    (the zeroed allocation), or an ERR_PTR left by a failed lookup. *)
Inductive regulator_ptr :=
| REG (s : supply)
| REG_NULL
| REG_ERR (errno : Z).

Definition IS_ERR_OR_NULL (p : regulator_ptr) : bool :=
  match p with
  | REG _ => false
  | REG_NULL | REG_ERR _ => true
  end.

(** Bits of [dsi->mode_flags].  Their positions are declared in
    drm_mipi_dsi.h, so the mask is kept as the set of names it holds. *)
Inductive mode_flag :=
| MIPI_DSI_MODE_VIDEO
| MIPI_DSI_MODE_VIDEO_BURST
| MIPI_DSI_MODE_VIDEO_SYNC_PULSE
| MIPI_DSI_MODE_LPM.

Definition mode_flag_eqb (a b : mode_flag) : bool :=
  match a, b with
  | MIPI_DSI_MODE_VIDEO, MIPI_DSI_MODE_VIDEO
  | MIPI_DSI_MODE_VIDEO_BURST, MIPI_DSI_MODE_VIDEO_BURST
  | MIPI_DSI_MODE_VIDEO_SYNC_PULSE, MIPI_DSI_MODE_VIDEO_SYNC_PULSE
  | MIPI_DSI_MODE_LPM, MIPI_DSI_MODE_LPM => true
  | _, _ => false
  end.

(** [mask |= flag]. *)
Definition flags_or (mask : list mode_flag) (f : mode_flag) : list mode_flag :=
  if existsb (mode_flag_eqb f) mask then mask else mask ++ [f].

(** Every function of the kernel the driver calls.  The reset line is the
    only GPIO, so [gpiod_set_value_cansleep] carries the value alone; the
    DSI device is the only bus handle.  Payload bytes are [u8] values. *)
Inductive call :=
| gpiod_set_value_cansleep (value : Z)
| regulator_enable (r : regulator_ptr)
| regulator_disable (r : regulator_ptr)
| msleep (msecs : Z)
| mipi_dsi_generic_write (payload : list Z)
| mipi_dsi_dcs_write (cmd : Z) (data : list Z)
| mipi_dsi_dcs_read (cmd : Z) (len : Z)
| mipi_dsi_dcs_exit_sleep_mode
| mipi_dsi_dcs_enter_sleep_mode
| mipi_dsi_dcs_set_display_on
| mipi_dsi_dcs_set_display_off.

(** A call together with the [int] it returned ([0] for a void function). *)
Record event := Ev { ev_call : call; ev_ret : Z }.

(** One line of the kernel log. *)
Inductive loglevel := KERN_ERR | KERN_DEFAULT | KERN_DEBUG.
Record logline := Log { log_level : loglevel; log_fmt : string; log_args : list Z }.

End Kernel.
Export Kernel.

(** The function a descriptor's [init_sequence] pointer designates. *)
Inductive init_fn :=
| jh057n_init_sequence_fn
| xbd599_init_sequence_fn
| p0500063b_init_sequence_fn.

Record st7703_panel_desc := {
  lanes : Z;
  desc_mode_flags : list mode_flag;
  init_sequence : init_fn
}.

Record mipi_dsi_device := { mode_flags : list mode_flag }.

(** [struct st7703] (the embedded [drm_panel], the reset descriptor and the
    debugfs entry carry no data the callbacks read). *)
Record st7703 := {
  vcc : regulator_ptr;
  iovcc : regulator_ptr;
  prepared : bool;
  dsi : mipi_dsi_device;
  desc : st7703_panel_desc
}.

(** The machine: the panel object, the environment's answers, and what has
    happened so far.  [respond] gives the return value of a call from the
    history that precedes it, so an answer may depend on anything the
    driver did before. *)
Record state := {
  ctx : st7703;
  respond : list event -> call -> Z;
  trace : list event;
  dmesg : list logline
}.

(** ** The monad: state passing with C's early return *)

Inductive outcome (A : Type) :=
| Next (a : A)
| Return (ret : Z).
Arguments Next {A} a.
Arguments Return {A} ret.

Definition M (A : Type) : Type := state -> outcome A * state.

Definition pure {A} (a : A) : M A := fun s => (Next a, s).

Definition bind {A B} (m : M A) (k : A -> M B) : M B :=
  fun s =>
    match m s with
    | (Next a, s') => k a s'
    | (Return r, s') => (Return r, s')
    end.

(** [return r;] *)
Definition c_return {A} (r : Z) : M A := fun s => (Return r, s).

Declare Scope c_scope.
Delimit Scope c_scope with c.
Notation "x <- m ;; k" := (bind m (fun x => k))
  (at level 61, m at next level, right associativity) : c_scope.
Notation "m ;; k" := (bind m (fun _ => k))
  (at level 61, right associativity) : c_scope.
Local Open Scope c_scope.

(** A function body always leaves through [return], so it is a computation
    with no normal outcome. *)
Definition body := M Empty_set.

(** An [int f(...)] seen from its caller. *)
Definition cfun := state -> Z * state.

Definition define (b : body) : cfun :=
  fun s =>
    match b s with
    | (Return r, s') => (r, s')
    | (Next e, _) => match e with end
    end.

(** [goto l;] where the code after the label [l] runs to a [return]. *)
Definition goto {A} (l : body) : M A :=
  fun s =>
    match l s with
    | (Return r, s') => (Return r, s')
    | (Next e, _) => match e with end
    end.

(** Calling a driver function from inside another one. *)
Definition invoke (f : cfun) : M Z :=
  fun s => let '(r, s') := f s in (Next r, s').

(** Calling into the kernel: ask the environment, log the event. *)
Definition extern (c : call) : M Z :=
  fun s =>
    let r := respond s (trace s) c in
    (Next r, {| ctx := ctx s; respond := respond s;
                trace := trace s ++ [Ev c r]; dmesg := dmesg s |}).

(** Calling a void kernel function. *)
Definition extern_void (c : call) : M unit :=
  fun s =>
    (Next tt, {| ctx := ctx s; respond := respond s;
                 trace := trace s ++ [Ev c 0]; dmesg := dmesg s |}).

Definition printk_at (l : loglevel) (fmt : string) (args : list Z) : M unit :=
  fun s =>
    (Next tt, {| ctx := ctx s; respond := respond s; trace := trace s;
                 dmesg := dmesg s ++ [Log l fmt args] |}).

Definition dev_err := printk_at KERN_ERR.
Definition dev_dbg := printk_at KERN_DEBUG.
Definition printk := printk_at KERN_DEFAULT.

Definition get_ctx : M st7703 := fun s => (Next (ctx s), s).

Definition put_ctx (c : st7703) : M unit :=
  fun s =>
    (Next tt, {| ctx := c; respond := respond s; trace := trace s;
                 dmesg := dmesg s |}).

(** [ctx->prepared = b;] *)
Definition set_prepared (b : bool) : M unit :=
  c <- get_ctx ;;
  put_ctx {| vcc := vcc c; iovcc := iovcc c; prepared := b;
             dsi := dsi c; desc := desc c |}.

(** [dsi->mode_flags |= f;] *)
Definition or_mode_flags (f : mode_flag) : M unit :=
  c <- get_ctx ;;
  put_ctx {| vcc := vcc c; iovcc := iovcc c; prepared := prepared c;
             dsi := {| mode_flags := flags_or (mode_flags (dsi c)) f |};
             desc := desc c |}.

(** [if (c) { m }] *)
Definition when (c : bool) (m : M unit) : M unit :=
  if c then m else pure tt.

(** The events a run from [s] to [s'] added to the trace. *)
Definition since (s s' : state) : list event :=
  skipn (List.length (trace s)) (trace s').

Definition logged_since (s s' : state) : list logline :=
  skipn (List.length (dmesg s)) (dmesg s').

(** [ctx->f] *)
Definition field {A} (f : st7703 -> A) : M A :=
  fun s => (Next (f (ctx s)), s).

(** ** The driver *)

(** Manufacturer specific commands sent via DSI. *)
Definition ST7703_CMD_ALL_PIXEL_OFF : Z := 0x22.
Definition ST7703_CMD_ALL_PIXEL_ON : Z := 0x23.
Definition ST7703_CMD_SETDISP : Z := 0xB2.
Definition ST7703_CMD_SETRGBIF : Z := 0xB3.
Definition ST7703_CMD_SETCYC : Z := 0xB4.
Definition ST7703_CMD_SETBGP : Z := 0xB5.
Definition ST7703_CMD_SETVCOM : Z := 0xB6.
Definition ST7703_CMD_SETOTP : Z := 0xB7.
Definition ST7703_CMD_SETPOWER_EXT : Z := 0xB8.
Definition ST7703_CMD_SETEXTC : Z := 0xB9.
Definition ST7703_CMD_SETMIPI : Z := 0xBA.
Definition ST7703_CMD_SETVDC : Z := 0xBC.
Definition ST7703_CMD_UNKNOWN_BF : Z := 0xBF.
Definition ST7703_CMD_SETSCR : Z := 0xC0.
Definition ST7703_CMD_SETPOWER : Z := 0xC1.
Definition ST7703_CMD_UNKNOWN_C6 : Z := 0xC6.
Definition ST7703_CMD_SETIO : Z := 0xC7.
Definition ST7703_CMD_SETCABC : Z := 0xC8.
Definition ST7703_CMD_SETPANEL : Z := 0xCC.
Definition ST7703_CMD_SETGAMMA : Z := 0xE0.
Definition ST7703_CMD_SETEQ : Z := 0xE3.
Definition ST7703_CMD_SETGIP1 : Z := 0xE9.
Definition ST7703_CMD_SETGIP2 : Z := 0xEA.
Definition ST7703_CMD_UNKNOWN_EF : Z := 0xEF.

(** The macro [dsi_generic_write_seq(dsi, seq...)]: one generic write of
    the bytes [seq]; a negative result leaves the enclosing function. *)
Definition dsi_generic_write_seq (d : list Z) : M unit :=
  ret <- extern (mipi_dsi_generic_write d) ;;
  when (ret <? 0) (c_return ret).

(** The macro [dsi_dcs_write_seq(dsi, cmd, seq...)]: one DCS write, then
    [msleep(20)], and only then the test of the result. *)
Definition dsi_dcs_write_seq (cmd : Z) (d : list Z) : M unit :=
  ret <- extern (mipi_dsi_dcs_write cmd d) ;;
  extern_void (msleep 20) ;;
  when (ret <? 0) (c_return ret).

(** [readInfo]: one DCS read of register 0xDA, printed.  The byte read is
    only ever printed, so the log line keeps the return value alone. *)
Definition readInfo : M unit :=
  printk "Reading registers!" [] ;;
  ret <- extern (mipi_dsi_dcs_read 0xDA 1) ;;
  printk "kd035: ID = %x %x %x. ret = %d" [ret] ;;
  printk "End registers" [].

Definition jh057n_init_sequence_body : body :=
  dsi_generic_write_seq
    [ST7703_CMD_SETEXTC; 0xF1; 0x12; 0x83] ;;
  dsi_generic_write_seq
    [ST7703_CMD_SETRGBIF; 0x10; 0x10; 0x05; 0x05; 0x03; 0xFF; 0x00; 0x00;
     0x00; 0x00] ;;
  dsi_generic_write_seq
    [ST7703_CMD_SETSCR; 0x73; 0x73; 0x50; 0x50; 0x00; 0x00; 0x08; 0x70;
     0x00] ;;
  dsi_generic_write_seq
    [ST7703_CMD_SETVDC; 0x4E] ;;
  dsi_generic_write_seq
    [ST7703_CMD_SETPANEL; 0x0B] ;;
  dsi_generic_write_seq
    [ST7703_CMD_SETCYC; 0x80] ;;
  dsi_generic_write_seq
    [ST7703_CMD_SETDISP; 0xF0; 0x12; 0x30] ;;
  dsi_generic_write_seq
    [ST7703_CMD_SETEQ; 0x07; 0x07; 0x0B; 0x0B; 0x03; 0x0B; 0x00; 0x00;
     0x00; 0x00; 0xFF; 0x00; 0xC0; 0x10] ;;
  dsi_generic_write_seq
    [ST7703_CMD_SETBGP; 0x08; 0x08] ;;
  extern_void (msleep 20) ;;
  dsi_generic_write_seq
    [ST7703_CMD_SETVCOM; 0x3F; 0x3F] ;;
  dsi_generic_write_seq
    [ST7703_CMD_UNKNOWN_BF; 0x02; 0x11; 0x00] ;;
  dsi_generic_write_seq
    [ST7703_CMD_SETGIP1; 0x82; 0x10; 0x06; 0x05; 0x9E; 0x0A; 0xA5; 0x12;
     0x31; 0x23; 0x37; 0x83; 0x04; 0xBC; 0x27; 0x38; 0x0C; 0x00; 0x03;
     0x00; 0x00; 0x00; 0x0C; 0x00; 0x03; 0x00; 0x00; 0x00; 0x75; 0x75;
     0x31; 0x88; 0x88; 0x88; 0x88; 0x88; 0x88; 0x13; 0x88; 0x64; 0x64;
     0x20; 0x88; 0x88; 0x88; 0x88; 0x88; 0x88; 0x02; 0x88; 0x00; 0x00;
     0x00; 0x00; 0x00; 0x00; 0x00; 0x00; 0x00; 0x00; 0x00; 0x00; 0x00] ;;
  dsi_generic_write_seq
    [ST7703_CMD_SETGIP2; 0x02; 0x21; 0x00; 0x00; 0x00; 0x00; 0x00; 0x00;
     0x00; 0x00; 0x00; 0x00; 0x02; 0x46; 0x02; 0x88; 0x88; 0x88; 0x88;
     0x88; 0x88; 0x64; 0x88; 0x13; 0x57; 0x13; 0x88; 0x88; 0x88; 0x88;
     0x88; 0x88; 0x75; 0x88; 0x23; 0x14; 0x00; 0x00; 0x02; 0x00; 0x00;
     0x00; 0x00; 0x00; 0x00; 0x00; 0x00; 0x00; 0x00; 0x00; 0x00; 0x00;
     0x00; 0x00; 0x30; 0x0A; 0xA5; 0x00; 0x00; 0x00; 0x00] ;;
  dsi_generic_write_seq
    [ST7703_CMD_SETGAMMA; 0x00; 0x09; 0x0E; 0x29; 0x2D; 0x3C; 0x41; 0x37;
     0x07; 0x0B; 0x0D; 0x10; 0x11; 0x0F; 0x10; 0x11; 0x18; 0x00; 0x09;
     0x0E; 0x29; 0x2D; 0x3C; 0x41; 0x37; 0x07; 0x0B; 0x0D; 0x10; 0x11;
     0x0F; 0x10; 0x11; 0x18] ;;
  c_return 0.

Definition xbd599_init_sequence_body : body :=

  c_return 0.

Definition p0500063b_init_sequence_body : body :=
  dev_err "INIT 1" [] ;;
  dsi_dcs_write_seq ST7703_CMD_SETEXTC
    [0xF1; 0x12; 0x83] ;;
  dev_err "INIT 2" [] ;;
  dsi_dcs_write_seq 0xB1
    [0x00; 0x00; 0x00; 0xDA; 0x80] ;;
  dev_err "INIT 3" [] ;;
  dsi_dcs_write_seq ST7703_CMD_SETDISP
    [0x78; 0x13; 0xF0] ;;
  dsi_dcs_write_seq ST7703_CMD_SETRGBIF
    [0x1A; 0x1E; 0x28; 0x28; 0x03; 0xFF; 0x00; 0x00; 0x00; 0x00] ;;
  dev_err "INIT 4" [] ;;
  dsi_dcs_write_seq ST7703_CMD_SETCYC
    [0x80] ;;
  dev_err "INIT 5" [] ;;
  dsi_dcs_write_seq ST7703_CMD_SETBGP
    [0x10; 0x10] ;;
  dev_err "INIT 6" [] ;;
  dsi_dcs_write_seq ST7703_CMD_SETVCOM
    [0x48; 0x48] ;;
  dev_err "INIT 7" [] ;;
  dsi_dcs_write_seq ST7703_CMD_SETPOWER_EXT
    [0x2E; 0x22; 0xF0; 0x13] ;;
  dev_err "INIT 7.1" [] ;;
  dsi_dcs_write_seq ST7703_CMD_SETMIPI
    [0x33; 0x81; 0x05; 0xF9; 0x0E; 0x0E; 0x20; 0x00; 0x00; 0x00; 0x00;
     0x00; 0x00; 0x00; 0x44; 0x25; 0x00; 0x90; 0x0A; 0x00; 0x00; 0x01;
     0x4F; 0x01; 0x00; 0x00; 0x37] ;;
  dev_err "INIT 8" [] ;;
  dsi_dcs_write_seq ST7703_CMD_SETVDC
    [0x4F] ;;
  dev_err "INIT 9" [] ;;
  dsi_dcs_write_seq ST7703_CMD_UNKNOWN_BF
    [0x02; 0x11; 0x00] ;;
  dev_err "INIT 10" [] ;;
  dsi_dcs_write_seq ST7703_CMD_SETSCR
    [0x73; 0x73; 0x50; 0x50; 0x00; 0x00; 0x12; 0x70; 0x00] ;;
  dsi_dcs_write_seq ST7703_CMD_SETPOWER
    [0x64; 0xC1; 0x2C; 0x2C; 0x77; 0xE4; 0xCF; 0xCF; 0x7E; 0x7E; 0x3E; 0x3E] ;;
  dev_err "INIT 11" [] ;;
  dsi_dcs_write_seq ST7703_CMD_UNKNOWN_C6
    [0x82; 0x00; 0xBF; 0xFF; 0x00; 0xFF] ;;
  dsi_dcs_write_seq ST7703_CMD_SETIO
    [0xB8; 0x00; 0x0A; 0x00; 0x00; 0x00] ;;
  dev_err "INIT 12" [] ;;
  dsi_dcs_write_seq ST7703_CMD_SETCABC
    [0x10; 0x40; 0x1E; 0x02] ;;
  dsi_dcs_write_seq ST7703_CMD_SETPANEL
    [0x0B] ;;
  dev_err "INIT 13" [] ;;
  dsi_dcs_write_seq ST7703_CMD_SETGAMMA
    [0x00; 0x0B; 0x10; 0x24; 0x29; 0x38; 0x44; 0x39; 0x0A; 0x0D; 0x0D;
     0x12; 0x14; 0x13; 0x15; 0x10; 0x15; 0x00; 0x0B; 0x10; 0x24; 0x29;
     0x38; 0x44; 0x39; 0x0A; 0x0D; 0x0D; 0x12; 0x14; 0x13; 0x15; 0x10; 0x15] ;;
  dsi_dcs_write_seq ST7703_CMD_SETEQ
    [0x07; 0x07; 0x0B; 0x0B; 0x0B; 0x0B; 0x00; 0x00; 0x00; 0x00; 0xFF;
     0x00; 0xC0; 0x10] ;;
  dev_err "INIT 14" [] ;;
  dsi_dcs_write_seq ST7703_CMD_SETGIP1
    [0xC8; 0x10; 0x11; 0x03; 0xC3; 0x80; 0x81; 0x12; 0x31; 0x23; 0xAF;
     0x8E; 0xAD; 0x6D; 0x8F; 0x10; 0x03; 0x00; 0x19; 0x00; 0x00; 0x00;
     0x03; 0x00; 0x19; 0x00; 0x00; 0x00; 0x9F; 0x84; 0x6A; 0xB6; 0x48;
     0x20; 0x64; 0x20; 0x20; 0x88; 0x88; 0x9F; 0x85; 0x7A; 0xB7; 0x58;
     0x31; 0x75; 0x31; 0x31; 0x88; 0x88; 0x00; 0x00; 0x00; 0x00; 0x00;
     0x80; 0x81; 0x5F; 0x00; 0x00; 0x00; 0x00; 0x00; 0x00; 0x00] ;;
  dsi_dcs_write_seq ST7703_CMD_SETGIP2
    [0x96; 0x1C; 0x01; 0x01; 0x00; 0x00; 0x01; 0x00; 0x00; 0x00; 0x00;
     0x00; 0x98; 0xF3; 0x1A; 0xB1; 0x38; 0x57; 0x13; 0x57; 0x57; 0x88;
     0x88; 0x98; 0xF2; 0x0A; 0xB0; 0x28; 0x46; 0x02; 0x46; 0x46; 0x88;
     0x88; 0x23; 0x10; 0x00; 0x00; 0xF4; 0x00; 0x00; 0x00; 0x00; 0x00;
     0x00; 0x0D; 0x80; 0x00; 0xF0; 0x00; 0x03; 0xCF; 0x12; 0x30; 0x70;
     0x80; 0x81; 0x40; 0x80; 0x81; 0x00; 0x00; 0x00; 0x00] ;;
  dev_err "INIT 15" [] ;;
  dsi_dcs_write_seq ST7703_CMD_UNKNOWN_EF
    [0xFF; 0xFF; 0x01] ;;
  dev_err "INIT 16" [] ;;
  c_return 0.

Definition jh057n_init_sequence : cfun := define jh057n_init_sequence_body.
Definition xbd599_init_sequence : cfun := define xbd599_init_sequence_body.
Definition p0500063b_init_sequence : cfun := define p0500063b_init_sequence_body.

Definition jh057n00900_panel_desc : st7703_panel_desc :=
  {| lanes := 4;
     desc_mode_flags := [MIPI_DSI_MODE_VIDEO; MIPI_DSI_MODE_VIDEO_BURST;
                         MIPI_DSI_MODE_VIDEO_SYNC_PULSE];
     init_sequence := jh057n_init_sequence_fn |}.

Definition xbd599_desc : st7703_panel_desc :=
  {| lanes := 4;
     desc_mode_flags := [MIPI_DSI_MODE_VIDEO; MIPI_DSI_MODE_VIDEO_SYNC_PULSE];
     init_sequence := xbd599_init_sequence_fn |}.

Definition p0500063b_desc : st7703_panel_desc :=
  {| lanes := 4;
     desc_mode_flags := [MIPI_DSI_MODE_VIDEO; MIPI_DSI_MODE_VIDEO_SYNC_PULSE];
     init_sequence := p0500063b_init_sequence_fn |}.

(** [ctx->desc->init_sequence(ctx)] *)
Definition call_init_sequence (f : init_fn) : cfun :=
  match f with
  | jh057n_init_sequence_fn => jh057n_init_sequence
  | xbd599_init_sequence_fn => xbd599_init_sequence
  | p0500063b_init_sequence_fn => p0500063b_init_sequence
  end.

Definition st7703_enable : cfun := define (
  dev_err "ENABLE BEGIN" [] ;;
  or_mode_flags MIPI_DSI_MODE_LPM ;;
  d <- field desc ;;
  ret <- invoke (call_init_sequence (init_sequence d)) ;;
  when (ret <? 0) (
    dev_err "Panel init sequence failed: %d" [ret] ;;
    c_return ret) ;;
  extern_void (msleep 20) ;;
  ret <- extern mipi_dsi_dcs_exit_sleep_mode ;;
  when (ret <? 0) (
    dev_err "Failed to exit sleep mode: %d" [ret] ;;
    c_return ret) ;;
  (* Panel is operational 120 msec after reset *)
  extern_void (msleep 120) ;;
  readInfo ;;
  ret <- extern mipi_dsi_dcs_set_display_on ;;
  (* if (ret) return ret;  is commented out in the source *)
  readInfo ;;
  dev_dbg "Panel init sequence done" [] ;;
  dev_err "ENABLE END" [] ;;
  c_return 0).

Definition st7703_disable : cfun := define (
  ret <- extern mipi_dsi_dcs_set_display_off ;;
  when (ret <? 0) (dev_err "Failed to turn off the display: %d" [ret]) ;;
  ret <- extern mipi_dsi_dcs_enter_sleep_mode ;;
  when (ret <? 0) (dev_err "Failed to enter sleep mode: %d" [ret]) ;;
  c_return 0).

Definition st7703_unprepare : cfun := define (
  p <- field prepared ;;
  when (negb p) (c_return 0) ;;
  extern_void (gpiod_set_value_cansleep 1) ;;
  io <- field iovcc ;;
  when (negb (IS_ERR_OR_NULL io)) (
    _ <- extern (regulator_disable io) ;; pure tt) ;;
  p <- field prepared ;;
  v <- field vcc ;;
  when (negb p && IS_ERR_OR_NULL v) (
    _ <- extern (regulator_disable v) ;; pure tt) ;;
  set_prepared false ;;
  extern_void (msleep 40) ;;
  c_return 0).

(** The label [disable_vcc:] of [st7703_prepare] and what follows it. *)
Definition prepare_disable_vcc (ret : Z) : body :=
  v <- field vcc ;;
  _ <- extern (regulator_disable v) ;;
  set_prepared false ;;
  c_return ret.

Definition st7703_prepare : cfun := define (
  p <- field prepared ;;
  when p (c_return 0) ;;
  dev_dbg "Resetting the panel" [] ;;
  p <- field prepared ;;
  v <- field vcc ;;
  when (negb p && negb (IS_ERR_OR_NULL v)) (
    ret <- extern (regulator_enable v) ;;
    when (ret <? 0) (
      dev_err "Failed to enable vcc supply: %d" [ret] ;;
      c_return ret)) ;;
  set_prepared true ;;
  io <- field iovcc ;;
  when (negb (IS_ERR_OR_NULL io)) (
    ret <- extern (regulator_enable io) ;;
    when (ret <? 0) (
      dev_err "Failed to enable iovcc supply: %d" [ret] ;;
      goto (prepare_disable_vcc ret))) ;;
  extern_void (gpiod_set_value_cansleep 1) ;;
  extern_void (msleep 20) ;;
  extern_void (gpiod_set_value_cansleep 0) ;;
  extern_void (msleep 120) ;;
  c_return 0).

(** ** Reading traces *)

(** A write issued through the command codec (the two [*_write_seq] macros). *)
Definition is_dcs_write (e : event) : bool :=
  match ev_call e with
  | mipi_dsi_dcs_write _ _ => true
  | _ => false
  end.

Definition is_codec_write (e : event) : bool :=
  match ev_call e with
  | mipi_dsi_generic_write _ | mipi_dsi_dcs_write _ _ => true
  | _ => false
  end.

Definition codec_calls (evs : list event) : list event :=
  filter is_codec_write evs.

(** What the macro still does after a write before it tests the result:
    the 20 ms sleep for a DCS write, nothing for a generic write. *)
Definition settle (e : event) : list event :=
  if is_dcs_write e then [Ev (msleep 20) 0] else [].

(** Every DCS write of [evs] is directly followed by [msleep(20)]. *)
Fixpoint dcs_settled (evs : list event) : bool :=
  match evs with
  | [] => true
  | e :: rest =>
      (if is_dcs_write e
       then match rest with
            | Ev (msleep 20) _ :: _ => true
            | _ => false
            end
       else true) && dcs_settled rest
  end.

(** The regulator call made for a rail, if the rail is there. *)
Definition if_present (p : regulator_ptr) (c : regulator_ptr -> call) : list call :=
  if IS_ERR_OR_NULL p then [] else [c p].

(** The environment's answer to [c] once the run from [s] has added [evs]. *)
Definition answer (s : state) (evs : list event) (c : call) : Z :=
  respond s (trace s ++ evs) c.

(** A run of one of the init sequences, as the list of its events and the
    value it returns: writes that succeed go on, the first write that
    fails ends the run with its error, after its settle delay if it was a
    DCS write. *)
Inductive seq_run : list event -> Z -> Prop :=
| run_done : seq_run [] 0
| run_generic_ok d r evs ret :
    0 <= r -> seq_run evs ret ->
    seq_run (Ev (mipi_dsi_generic_write d) r :: evs) ret
| run_generic_fail d r :
    r < 0 -> seq_run [Ev (mipi_dsi_generic_write d) r] r
| run_dcs_ok c d r evs ret :
    0 <= r -> seq_run evs ret ->
    seq_run (Ev (mipi_dsi_dcs_write c d) r :: Ev (msleep 20) 0 :: evs) ret
| run_dcs_fail c d r :
    r < 0 -> seq_run [Ev (mipi_dsi_dcs_write c d) r; Ev (msleep 20) 0] r
| run_msleep n evs ret :
    seq_run evs ret -> seq_run (Ev (msleep n) 0 :: evs) ret.

(** The shape of the init sequence bodies: macro calls, sleeps and log
    lines, one after the other, closed by [return 0]. *)
Inductive straight_line : body -> Prop :=
| sl_return : straight_line (c_return 0)
| sl_generic d k :
    straight_line k -> straight_line (dsi_generic_write_seq d ;; k)
| sl_dcs c d k :
    straight_line k -> straight_line (dsi_dcs_write_seq c d ;; k)
| sl_msleep n k :
    straight_line k -> straight_line (extern_void (msleep n) ;; k)
| sl_dev_err fmt args k :
    straight_line k -> straight_line (dev_err fmt args ;; k).

(** ** Sample machines *)

Definition panel (v io : regulator_ptr) (p : bool) (d : st7703_panel_desc) : st7703 :=
  {| vcc := v; iovcc := io; prepared := p;
     dsi := {| mode_flags := desc_mode_flags d |}; desc := d |}.

Definition boot (c : st7703) (env : list event -> call -> Z) : state :=
  {| ctx := c; respond := env; trace := []; dmesg := [] |}.

(** An environment in which every call succeeds. *)
Definition all_ok : list event -> call -> Z := fun _ _ => 0.

Definition EIO : Z := 5.
Definition EINVAL : Z := 22.

(** The secondary rail cannot be switched on. *)
Definition iovcc_broken : list event -> call -> Z :=
  fun _ c =>
    match c with
    | regulator_enable (REG iovcc_supply) => - EINVAL
    | _ => 0
    end.

(** The host fails whatever it is asked once two codec writes have gone
    through: the third codec call of an init sequence. *)
Definition third_write_fails : list event -> call -> Z :=
  fun h _ => if (List.length (codec_calls h) =? 2)%nat then - EIO else 0.

(** The host fails the display-on command only. *)
Definition display_on_fails : list event -> call -> Z :=
  fun _ c =>
    match c with
    | mipi_dsi_dcs_set_display_on => - EIO
    | _ => 0
    end.

(** Nothing the bus or the regulators are asked to do works. *)
Definition all_fail : list event -> call -> Z := fun _ _ => - EIO.

Definition both_rails (p : bool) (d : st7703_panel_desc) : st7703 :=
  panel (REG vcc_supply) (REG iovcc_supply) p d.

(** ** The specification's wording, to compare the code with *)

(** Power-up as the specification orders it: reset asserted, primary
    rail, a delay, secondary rail, a delay, reset released, 120 ms. *)
Definition spec_power_up_order (v io : regulator_ptr) (d1 d2 : Z) : list call :=
  [gpiod_set_value_cansleep 1] ++ if_present v regulator_enable ++ [msleep d1]
  ++ if_present io regulator_enable ++ [msleep d2]
  ++ [gpiod_set_value_cansleep 0; msleep 120].

(** Power-down as the specification orders it: reset asserted, secondary
    rail off, primary rail off, 40 ms. *)
Definition spec_power_down_order (v io : regulator_ptr) : list call :=
  [gpiod_set_value_cansleep 1] ++ if_present io regulator_disable
  ++ if_present v regulator_disable ++ [msleep 40].

(** The steps of [enable] whose failure the specification wants returned. *)
Definition is_enable_step (e : event) : bool :=
  match ev_call e with
  | mipi_dsi_generic_write _ | mipi_dsi_dcs_write _ _
  | mipi_dsi_dcs_exit_sleep_mode | mipi_dsi_dcs_set_display_on => true
  | _ => false
  end.

(** [enable] returns the error of whichever of those steps failed. *)
Definition spec_enable_returns_failures (s : state) : Prop :=
  forall e, In e (since s (snd (st7703_enable s))) ->
            is_enable_step e = true -> ev_ret e < 0 ->
            fst (st7703_enable s) = ev_ret e.

(** ** The runs of [st7703_enable] *)

(** What [st7703_enable] adds after an init sequence that returned 0 and
    an exit-sleep that succeeded. *)
Definition enable_tail (rs ra rb rc : Z) : list event :=
  [Ev (msleep 20) 0; Ev mipi_dsi_dcs_exit_sleep_mode rs; Ev (msleep 120) 0;
   Ev (mipi_dsi_dcs_read 0xDA 1) ra; Ev mipi_dsi_dcs_set_display_on rb;
   Ev (mipi_dsi_dcs_read 0xDA 1) rc].

(** The three ways a call of [st7703_enable] from [s] can go; [r] is the
    value returned and [s'] the machine it leaves. *)
Inductive enable_run (s : state) (r : Z) (s' : state) : Prop :=
| enable_init_failed evs :
    seq_run evs r -> r < 0 ->
    since s s' = evs ->
    enable_run s r s'
| enable_exit_sleep_failed evs :
    seq_run evs 0 -> r < 0 ->
    since s s' = evs ++ [Ev (msleep 20) 0; Ev mipi_dsi_dcs_exit_sleep_mode r] ->
    enable_run s r s'
| enable_done evs rs ra rb rc :
    seq_run evs 0 -> 0 <= rs -> r = 0 ->
    rb = answer s (evs ++ [Ev (msleep 20) 0;
                           Ev mipi_dsi_dcs_exit_sleep_mode rs;
                           Ev (msleep 120) 0;
                           Ev (mipi_dsi_dcs_read 0xDA 1) ra])
                mipi_dsi_dcs_set_display_on ->
    since s s' = evs ++ enable_tail rs ra rb rc ->
    enable_run s r s'.

(** The steps of [enable] whose failure the code returns. *)
Definition is_init_or_exit_sleep (e : event) : bool :=
  match ev_call e with
  | mipi_dsi_generic_write _ | mipi_dsi_dcs_write _ _
  | mipi_dsi_dcs_exit_sleep_mode => true
  | _ => false
  end.

(** ** The callback table and the debugfs hook *)

(** The fields of [st7703_drm_funcs] that point into this file
    ([get_modes] only talks to the connector). *)
Inductive drm_panel_func := func_disable | func_unprepare | func_prepare | func_enable.

Definition st7703_drm_funcs (f : drm_panel_func) : cfun :=
  match f with
  | func_disable => st7703_disable
  | func_unprepare => st7703_unprepare
  | func_prepare => st7703_prepare
  | func_enable => st7703_enable
  end.

(** The machine after the callbacks [fs] were called one after the other. *)
Fixpoint after_calls (fs : list drm_panel_func) (s : state) : state :=
  match fs with
  | [] => s
  | f :: rest => after_calls rest (snd (st7703_drm_funcs f s))
  end.

Section AllPixelsOn.

(** The four entry points of drm_panel.c that [allpixelson_set] calls.
    They live outside this file, so they are left open. *)
Variables drm_panel_disable drm_panel_unprepare
          drm_panel_prepare drm_panel_enable : cfun.

(** [allpixelson_set(data, val)].  [val] is a [u64], so [val * 1000] wraps
    at 64 bits; the event keeps that product, what [msleep] makes of it is
    the callee's prototype. *)
Definition allpixelson_set (val : Z) : cfun := define (
  dev_dbg "Setting all pixels on" [] ;;
  dsi_generic_write_seq [ST7703_CMD_ALL_PIXEL_ON] ;;
  extern_void (msleep ((val * 1000) mod 2 ^ 64)) ;;
  (* Reset the panel to get video back *)
  _ <- invoke drm_panel_disable ;;
  _ <- invoke drm_panel_unprepare ;;
  _ <- invoke drm_panel_prepare ;;
  _ <- invoke drm_panel_enable ;;
  c_return 0).

End AllPixelsOn.

(** ** Reading more of a trace *)

(** Calls that act on the reset line or on a rail. *)
Definition is_power_call (c : call) : bool :=
  match c with
  | gpiod_set_value_cansleep _ | regulator_enable _ | regulator_disable _ => true
  | _ => false
  end.

Definition no_power_calls (evs : list event) : bool :=
  forallb (fun e => negb (is_power_call (ev_call e))) evs.

(** The value the reset line was last driven to, if it was driven at all. *)
Definition reset_level (t : list event) : option Z :=
  fold_left (fun lvl e =>
               match ev_call e with
               | gpiod_set_value_cansleep v => Some v
               | _ => lvl
               end) t None.

(** A panel marked prepared has its reset line released. *)
Definition reset_released_when_prepared (s : state) : Prop :=
  prepared (ctx s) = true -> reset_level (trace s) = Some 0.

(** Milliseconds of [msleep] in a list of calls. *)
Definition slept (cs : list call) : Z :=
  fold_right (fun c acc =>
                match c with
                | msleep n => n + acc
                | _ => acc
                end) 0 cs.

Definition display_on_count (evs : list event) : nat :=
  List.length (filter (fun e =>
                         match ev_call e with
                         | mipi_dsi_dcs_set_display_on => true
                         | _ => false
                         end) evs).

(** The calls an init sequence makes when nothing fails. *)
Definition command_list (f : init_fn) : list call :=
  map ev_call
      (trace (snd (call_init_sequence f
                     (boot (both_rails true p0500063b_desc) all_ok)))).

(** The milliseconds an init sequence sleeps when nothing fails. *)
Definition init_sleep (f : init_fn) : Z := slept (command_list f).

(** The machine [s] with another panel object. *)
Definition with_ctx (c : st7703) (s : state) : state :=
  {| ctx := c; respond := respond s; trace := trace s; dmesg := dmesg s |}.

(** The panel object [c] with its [prepared] flag forced to [b]. *)
Definition mark_prepared (b : bool) (c : st7703) : st7703 :=
  {| vcc := vcc c; iovcc := iovcc c; prepared := b;
     dsi := dsi c; desc := desc c |}.

(** The primary rail cannot be switched on. *)
Definition vcc_broken : list event -> call -> Z :=
  fun _ c =>
    match c with
    | regulator_enable (REG vcc_supply) => - EINVAL
    | _ => 0
    end.

(** The machine [s] once [evs] were added to its trace. *)
Definition log_events (evs : list event) (s : state) : state :=
  {| ctx := ctx s; respond := respond s; trace := trace s ++ evs;
     dmesg := dmesg s |}.

(** The machine [s] once [l] was added to its log. *)
Definition log_line (l : logline) (s : state) : state :=
  {| ctx := ctx s; respond := respond s; trace := trace s;
     dmesg := dmesg s ++ [l] |}.

(** No [msleep] of [cs] is asked for a negative time. *)
Definition sleeps_nonneg (cs : list call) : bool :=
  forallb (fun c => match c with msleep n => 0 <=? n | _ => true end) cs.

(** The panel object [c] once [dsi->mode_flags |= MIPI_DSI_MODE_LPM] ran. *)
Definition with_lpm (c : st7703) : st7703 :=
  {| vcc := vcc c; iovcc := iovcc c; prepared := prepared c;
     dsi := {| mode_flags := flags_or (mode_flags (dsi c)) MIPI_DSI_MODE_LPM |};
     desc := desc c |}.

(** What a callback keeps of the machine: the rail handles, the
    descriptor, the environment, and everything already in the trace. *)
Definition frame (s s' : state) : Prop :=
  vcc (ctx s') = vcc (ctx s) /\
  iovcc (ctx s') = iovcc (ctx s) /\
  desc (ctx s') = desc (ctx s) /\
  respond s' = respond s /\
  trace s' = trace s ++ since s s'.

(** A generic or DCS write, as a call. *)
Definition is_write_call (c : call) : bool :=
  match c with
  | mipi_dsi_generic_write _ | mipi_dsi_dcs_write _ _ => true
  | _ => false
  end.

(** ** Proof tools *)

Lemma skipn_length_app {A} (l evs : list A) :
  skipn (List.length l) (l ++ evs) = evs.
Proof.
  induction l as [| a l IH]; [reflexivity | exact IH].
Qed.

Lemma since_app (s s' : state) (evs : list event) :
  trace s' = trace s ++ evs -> since s s' = evs.
Proof.
  unfold since. intros ->. apply skipn_length_app.
Qed.

Lemma since_refl (s : state) : since s s = [].
Proof.
  apply since_app. now rewrite app_nil_r.
Qed.

Lemma logged_since_app (s s' : state) (ls : list logline) :
  dmesg s' = dmesg s ++ ls -> logged_since s s' = ls.
Proof.
  unfold logged_since. intros ->. apply skipn_length_app.
Qed.

(** Unfold the monad down to state records. *)
Ltac run_c_once :=
  cbv [define bind pure c_return when extern extern_void field
       set_prepared or_mode_flags get_ctx put_ctx printk_at dev_err
       dev_dbg printk goto invoke readInfo prepare_disable_vcc
       dsi_generic_write_seq dsi_dcs_write_seq
       ctx respond trace dmesg vcc iovcc prepared dsi desc fst snd negb
       andb].

Ltac run_c :=
  run_c_once; repeat (progress cbn [IS_ERR_OR_NULL]; run_c_once).

(** Name the parts of a machine. *)
Ltac open_state s :=
  let c := fresh "c" in
  destruct s as [c ? ? ?]; destruct c as [? ? ? ? ?];
  cbn [ctx respond trace dmesg vcc iovcc prepared dsi desc] in *.

(** Bring a trace [((t ++ a) ++ b) ++ ...] to the form [t ++ evs]. *)
Ltac flatten_trace :=
  cbn [trace dmesg]; rewrite <- ?app_assoc; cbn [app].

Ltac solve_since :=
  first [ apply since_app | apply logged_since_app ];
  cbn [trace dmesg app]; rewrite <- ?app_assoc, ?app_nil_r; reflexivity.

(** ** Power-down *)

(** What [st7703_unprepare] does to a prepared panel, for every wiring of
    the rails and every environment: the reset line, the secondary rail
    if there is one, 40 ms.  The test that guards the primary rail's
    [regulator_disable] reads [!ctx->prepared] while [prepared] is still
    set, so that call is never made. *)
Lemma st7703_unprepare_calls (s : state) :
  prepared (ctx s) = true ->
  map ev_call (since s (snd (st7703_unprepare s)))
  = [gpiod_set_value_cansleep 1]
    ++ if_present (iovcc (ctx s)) regulator_disable ++ [msleep 40].
Proof.
  intros Hp. open_state s. subst. unfold st7703_unprepare, if_present. run_c.
  destruct (IS_ERR_OR_NULL _); run_c;
    erewrite since_app by (flatten_trace; reflexivity); reflexivity.
Qed.

(** C1, at a prepared panel with both rails wired and an environment where
    every call succeeds: [st7703_unprepare] asserts reset, disables iovcc
    and sleeps 40 ms, and that is all; vcc is never disabled, so the calls
    are not the power-down order of the specification (reset, iovcc off,
    vcc off, 40 ms). *)
Theorem st7703_unprepare_skips_vcc :
  let s := boot (both_rails true p0500063b_desc) all_ok in
  prepared (ctx s) = true /\
  map ev_call (since s (snd (st7703_unprepare s)))
  = [gpiod_set_value_cansleep 1; regulator_disable (REG iovcc_supply);
     msleep 40] /\
  ~ In (regulator_disable (REG vcc_supply))
       (map ev_call (since s (snd (st7703_unprepare s)))) /\
  map ev_call (since s (snd (st7703_unprepare s)))
  <> spec_power_down_order (vcc (ctx s)) (iovcc (ctx s)).
Proof.
  intros s. split; [reflexivity |].
  rewrite st7703_unprepare_calls by reflexivity.
  cbn. repeat split.
  - intros [H | [H | [H | []]]]; discriminate H.
  - discriminate.
Qed.

(** C7: [st7703_unprepare] returns 0 and leaves [prepared] cleared, from
    every state and whatever the regulators answer. *)
Theorem st7703_unprepare_always_unprepared (s : state) :
  fst (st7703_unprepare s) = 0 /\
  prepared (ctx (snd (st7703_unprepare s))) = false.
Proof.
  open_state s. unfold st7703_unprepare. run_c.
  destruct prepared0; run_c; [| split; reflexivity].
  destruct (IS_ERR_OR_NULL _); run_c; split; reflexivity.
Qed.

(** C5: [st7703_prepare] on a prepared panel, and [st7703_unprepare] on an
    unprepared one, return 0 and leave the machine as it was: no event is
    added to the trace (no reset toggle, no regulator call, no sleep),
    nothing is logged, the panel object is unchanged. *)
Theorem prepare_unprepare_idempotent (s : state) :
  (prepared (ctx s) = true -> st7703_prepare s = (0, s)) /\
  (prepared (ctx s) = false -> st7703_unprepare s = (0, s)).
Proof.
  open_state s. split; intros ->.
  - unfold st7703_prepare. run_c. reflexivity.
  - unfold st7703_unprepare. run_c. reflexivity.
Qed.

Lemma prepare_unprepare_idempotent_witness :
  let sp := boot (both_rails true p0500063b_desc) all_fail in
  let su := boot (both_rails false p0500063b_desc) all_fail in
  (st7703_prepare sp = (0, sp) /\ since sp (snd (st7703_prepare sp)) = []) /\
  (st7703_unprepare su = (0, su) /\ since su (snd (st7703_unprepare su)) = []).
Proof.
  intros sp su. split.
  - pose proof (proj1 (prepare_unprepare_idempotent sp) eq_refl) as H.
    split; [exact H | rewrite H; reflexivity].
  - pose proof (proj2 (prepare_unprepare_idempotent su) eq_refl) as H.
    split; [exact H | rewrite H; reflexivity].
Defined.

(** ** Power-up *)

(** C3 as stated fails: with both rails wired and every call succeeding,
    the calls of [st7703_prepare] are not the specification's order (reset
    asserted first, a delay after each rail) for any two delays. *)
Lemma st7703_prepare_not_spec_order :
  let s := boot (both_rails false p0500063b_desc) all_ok in
  prepared (ctx s) = false /\
  ~ exists d1 d2,
      map ev_call (since s (snd (st7703_prepare s)))
      = spec_power_up_order (vcc (ctx s)) (iovcc (ctx s)) d1 d2.
Proof.
  intros s. split; [reflexivity |].
  intros [d1 [d2 H]]. vm_compute in H. discriminate H.
Qed.

(** C3, amended: a call of [st7703_prepare] on an unprepared panel that
    succeeds makes these calls in this order: enable vcc if present,
    enable iovcc if present, assert reset, sleep 20 ms, release reset,
    sleep 120 ms; and it sets [prepared].  Releasing reset is the last
    action on the hardware; only the 120 ms wait follows. *)
Theorem st7703_prepare_order (s : state) :
  prepared (ctx s) = false ->
  fst (st7703_prepare s) = 0 ->
  map ev_call (since s (snd (st7703_prepare s)))
  = if_present (vcc (ctx s)) regulator_enable
    ++ if_present (iovcc (ctx s)) regulator_enable
    ++ [gpiod_set_value_cansleep 1; msleep 20;
        gpiod_set_value_cansleep 0; msleep 120]
  /\ prepared (ctx (snd (st7703_prepare s))) = true.
Proof.
  intros Hp. open_state s. subst. unfold st7703_prepare, if_present. run_c.
  destruct (IS_ERR_OR_NULL vcc0); run_c.
  - destruct (IS_ERR_OR_NULL iovcc0); run_c.
    + intros _. split; [| reflexivity].
      erewrite since_app by (flatten_trace; reflexivity). reflexivity.
    + destruct (Z.ltb_spec (respond0 trace0 (regulator_enable iovcc0)) 0);
        run_c; [intros E; lia |].
      intros _. split; [| reflexivity].
      erewrite since_app by (flatten_trace; reflexivity). reflexivity.
  - destruct (Z.ltb_spec (respond0 trace0 (regulator_enable vcc0)) 0);
      run_c; [intros E; lia |].
    destruct (IS_ERR_OR_NULL iovcc0); run_c.
    + intros _. split; [| reflexivity].
      erewrite since_app by (flatten_trace; reflexivity). reflexivity.
    + match goal with
      | |- context [ ?r <? 0 ] => destruct (Z.ltb_spec r 0)
      end; run_c; [intros E; lia |].
      intros _. split; [| reflexivity].
      erewrite since_app by (flatten_trace; reflexivity). reflexivity.
Qed.

Lemma st7703_prepare_order_witness :
  let s := boot (both_rails false p0500063b_desc) all_ok in
  map ev_call (since s (snd (st7703_prepare s)))
  = [regulator_enable (REG vcc_supply); regulator_enable (REG iovcc_supply);
     gpiod_set_value_cansleep 1; msleep 20;
     gpiod_set_value_cansleep 0; msleep 120]
  /\ prepared (ctx (snd (st7703_prepare s))) = true.
Proof.
  intros s. apply (st7703_prepare_order s); reflexivity.
Defined.

(** C4: on an unprepared panel with both rails wired, when the
    environment lets [regulator_enable(vcc)] succeed and then fails
    [regulator_enable(iovcc)], [st7703_prepare] makes exactly three calls:
    vcc on, iovcc on (failing), vcc off; it returns the error of the iovcc
    enable and [prepared] is false when it returns. *)
Theorem st7703_prepare_rollback (s : state) (a b : supply) :
  prepared (ctx s) = false ->
  vcc (ctx s) = REG a ->
  iovcc (ctx s) = REG b ->
  let e1 := Ev (regulator_enable (REG a))
               (answer s [] (regulator_enable (REG a))) in
  let e2 := Ev (regulator_enable (REG b))
               (answer s [e1] (regulator_enable (REG b))) in
  let e3 := Ev (regulator_disable (REG a))
               (answer s [e1; e2] (regulator_disable (REG a))) in
  0 <= ev_ret e1 ->
  ev_ret e2 < 0 ->
  fst (st7703_prepare s) = ev_ret e2 /\
  prepared (ctx (snd (st7703_prepare s))) = false /\
  since s (snd (st7703_prepare s)) = [e1; e2; e3].
Proof.
  intros Hp Hv Hio. open_state s. subst. unfold answer. cbn [trace respond ev_ret].
  rewrite app_nil_r. intros H1 H2.
  unfold st7703_prepare. run_c.
  destruct (Z.ltb_spec (respond0 trace0 (regulator_enable (REG a))) 0);
    [lia |]. run_c.
  match goal with
  | |- context [ ?r <? 0 ] => destruct (Z.ltb_spec r 0)
  end; [| lia]. run_c.
  repeat split.
  erewrite since_app by (flatten_trace; reflexivity). reflexivity.
Qed.

Lemma st7703_prepare_rollback_witness :
  let s := boot (both_rails false p0500063b_desc) iovcc_broken in
  fst (st7703_prepare s) = - EINVAL /\
  prepared (ctx (snd (st7703_prepare s))) = false /\
  since s (snd (st7703_prepare s))
  = [Ev (regulator_enable (REG vcc_supply)) 0;
     Ev (regulator_enable (REG iovcc_supply)) (- EINVAL);
     Ev (regulator_disable (REG vcc_supply)) 0].
Proof.
  intros s.
  apply (st7703_prepare_rollback s vcc_supply iovcc_supply);
    [reflexivity | reflexivity | reflexivity | vm_compute; discriminate
    | reflexivity].
Defined.

(** ** Disable *)

(** C9: [st7703_disable] sends display-off, then enter-sleep, each once
    and in that order, whatever the first one answered; it logs one error
    line per command that failed; it returns 0 and leaves the panel object
    as it was. *)
Theorem st7703_disable_best_effort (s : state) :
  let off := Ev mipi_dsi_dcs_set_display_off
                (answer s [] mipi_dsi_dcs_set_display_off) in
  let slp := Ev mipi_dsi_dcs_enter_sleep_mode
                (answer s [off] mipi_dsi_dcs_enter_sleep_mode) in
  fst (st7703_disable s) = 0 /\
  since s (snd (st7703_disable s)) = [off; slp] /\
  ctx (snd (st7703_disable s)) = ctx s /\
  logged_since s (snd (st7703_disable s))
  = (if ev_ret off <? 0
     then [Log KERN_ERR "Failed to turn off the display: %d" [ev_ret off]]
     else [])
    ++ (if ev_ret slp <? 0
        then [Log KERN_ERR "Failed to enter sleep mode: %d" [ev_ret slp]]
        else []).
Proof.
  open_state s. unfold answer. cbn [trace respond ev_ret].
  rewrite app_nil_r. unfold st7703_disable. run_c.
  destruct (_ <? 0); run_c; destruct (_ <? 0); run_c;
    (repeat split; solve_since).
Qed.

(** ** Runs of the init sequences *)

Section SeqRun.

Variables (evs : list event) (ret : Z).
Hypothesis Hrun : seq_run evs ret.

(** An init sequence returns 0 or a negative error. *)
Lemma seq_run_ret : ret = 0 \/ ret < 0.
Proof.
  induction Hrun; auto.
Qed.

(** A codec write that failed is the one whose error is returned. *)
Lemma seq_run_error (e : event) :
  In e evs -> is_codec_write e = true -> ev_ret e < 0 -> ret = ev_ret e.
Proof.
  induction Hrun; cbn [In]; intros Hin Hw Hneg;
    repeat match goal with
           | H : _ \/ _ |- _ => destruct H
           | H : False |- _ => destruct H
           end;
    subst; cbn in *; try reflexivity; try lia; try discriminate; auto.
Qed.

(** Fail-fast: the [k]-th codec write, if it failed, is the last codec
    write of the run, only its settle delay follows it, and its error is
    the value returned. *)
Lemma seq_run_fail_fast (k : nat) (e : event) :
  nth_error (codec_calls evs) k = Some e ->
  ev_ret e < 0 ->
  ret = ev_ret e /\
  List.length (codec_calls evs) = S k /\
  exists pre, evs = pre ++ e :: settle e.
Proof.
  revert k.
  induction Hrun as [| d r evs' ret' Hr Hrun' IH | d r Hr
                     | c d r evs' ret' Hr Hrun' IH | c d r Hr
                     | n evs' ret' Hrun' IH];
    intros k Hk Hneg; cbn in Hk.
  - destruct k; discriminate Hk.
  - destruct k as [| k]; cbn in Hk.
    + injection Hk as <-. cbn in Hneg. lia.
    + destruct (IH Hrun' k Hk Hneg) as (-> & Hlen & pre & ->).
      repeat split.
      * cbn. now rewrite <- Hlen.
      * exists (Ev (mipi_dsi_generic_write d) r :: pre). reflexivity.
  - destruct k as [| k]; cbn in Hk.
    + injection Hk as <-. repeat split. exists []. reflexivity.
    + destruct k; discriminate Hk.
  - destruct k as [| k]; cbn in Hk.
    + injection Hk as <-. cbn in Hneg. lia.
    + destruct (IH Hrun' k Hk Hneg) as (-> & Hlen & pre & ->).
      repeat split.
      * cbn. now rewrite <- Hlen.
      * exists (Ev (mipi_dsi_dcs_write c d) r :: Ev (msleep 20) 0 :: pre).
        reflexivity.
  - destruct k as [| k]; cbn in Hk.
    + injection Hk as <-. repeat split. exists []. reflexivity.
    + destruct k; discriminate Hk.
  - destruct (IH Hrun' k Hk Hneg) as (-> & Hlen & pre & ->).
    repeat split.
    + exact Hlen.
    + exists (Ev (msleep n) 0 :: pre). reflexivity.
Qed.

(** Every DCS write of a run has its 20 ms. *)
Lemma seq_run_settled : dcs_settled evs = true.
Proof.
  induction Hrun; cbn; auto.
Qed.

(** A run holds codec writes and sleeps, nothing else. *)
Lemma seq_run_calls (e : event) :
  In e evs -> is_codec_write e = true \/ exists n, ev_call e = msleep n.
Proof.
  induction Hrun; cbn [In]; intros Hin;
    repeat match goal with
           | H : _ \/ _ |- _ => destruct H
           | H : False |- _ => destruct H
           end;
    subst; cbn; eauto.
Qed.

End SeqRun.

Lemma dcs_settled_app (a b : list event) :
  dcs_settled a = true -> dcs_settled (a ++ b) = dcs_settled b.
Proof.
  induction a as [| e a IH]; [reflexivity |].
  cbn [dcs_settled app]. intros H.
  apply andb_prop in H as [He Ha]. rewrite (IH Ha).
  destruct (is_dcs_write e); [| reflexivity].
  destruct a as [| [c r] a]; [discriminate He |].
  cbn [app]. rewrite He. reflexivity.
Qed.

(** One step of a straight-line body, seen from the caller. *)
Lemma define_generic (d : list Z) (k : body) (s : state) :
  define (dsi_generic_write_seq d ;; k) s
  = let r := respond s (trace s) (mipi_dsi_generic_write d) in
    let s1 := {| ctx := ctx s; respond := respond s;
                 trace := trace s ++ [Ev (mipi_dsi_generic_write d) r];
                 dmesg := dmesg s |} in
    if r <? 0 then (r, s1) else define k s1.
Proof.
  run_c. destruct (_ <? 0); reflexivity.
Qed.

Lemma define_dcs (c : Z) (d : list Z) (k : body) (s : state) :
  define (dsi_dcs_write_seq c d ;; k) s
  = let r := respond s (trace s) (mipi_dsi_dcs_write c d) in
    let s1 := {| ctx := ctx s; respond := respond s;
                 trace := trace s ++ [Ev (mipi_dsi_dcs_write c d) r;
                                      Ev (msleep 20) 0];
                 dmesg := dmesg s |} in
    if r <? 0 then (r, s1) else define k s1.
Proof.
  run_c. rewrite <- app_assoc. destruct (_ <? 0); reflexivity.
Qed.

Lemma define_msleep (n : Z) (k : body) (s : state) :
  define (extern_void (msleep n) ;; k) s
  = define k {| ctx := ctx s; respond := respond s;
                trace := trace s ++ [Ev (msleep n) 0]; dmesg := dmesg s |}.
Proof. reflexivity. Qed.

Lemma define_dev_err (fmt : string) (args : list Z) (k : body) (s : state) :
  define (dev_err fmt args ;; k) s
  = define k {| ctx := ctx s; respond := respond s; trace := trace s;
                dmesg := dmesg s ++ [Log KERN_ERR fmt args] |}.
Proof. reflexivity. Qed.

(** A straight-line body only adds to the trace and the log, and what it
    adds to the trace is a [seq_run]. *)
Lemma straight_line_run (b : body) :
  straight_line b ->
  forall s, exists evs ret logs,
    define b s = (ret, {| ctx := ctx s; respond := respond s;
                          trace := trace s ++ evs;
                          dmesg := dmesg s ++ logs |}) /\
    seq_run evs ret.
Proof.
  induction 1 as [| d k Hk IH | c d k Hk IH | n k Hk IH | fmt args k Hk IH];
    intros s.
  - exists [], 0, []. split; [| constructor].
    destruct s; cbn. now rewrite !app_nil_r.
  - rewrite define_generic. cbv zeta.
    destruct (Z.ltb_spec (respond s (trace s) (mipi_dsi_generic_write d)) 0)
      as [Hneg | Hpos].
    + eexists [_], _, []. split; [| constructor; exact Hneg].
      now rewrite app_nil_r.
    + edestruct IH as (evs & ret & logs & -> & Hrun).
      eexists (_ :: evs), ret, logs. cbn [ctx respond trace dmesg].
      split; [| constructor; eassumption].
      now rewrite <- app_assoc.
  - rewrite define_dcs. cbv zeta.
    destruct (Z.ltb_spec (respond s (trace s) (mipi_dsi_dcs_write c d)) 0)
      as [Hneg | Hpos].
    + eexists [_; _], _, []. split; [| constructor; exact Hneg].
      now rewrite app_nil_r.
    + edestruct IH as (evs & ret & logs & -> & Hrun).
      eexists (_ :: _ :: evs), ret, logs. cbn [ctx respond trace dmesg].
      split; [| constructor; eassumption].
      now rewrite <- app_assoc.
  - rewrite define_msleep.
    edestruct IH as (evs & ret & logs & -> & Hrun).
    eexists (_ :: evs), ret, logs. cbn [ctx respond trace dmesg].
    split; [| constructor; eassumption].
    now rewrite <- app_assoc.
  - rewrite define_dev_err.
    edestruct IH as (evs & ret & logs & -> & Hrun).
    eexists evs, ret, (_ :: logs). cbn [ctx respond trace dmesg].
    split; [| eassumption].
    now rewrite <- app_assoc.
Qed.

Lemma jh057n_straight : straight_line jh057n_init_sequence_body.
Proof. repeat constructor. Qed.

Lemma xbd599_straight : straight_line xbd599_init_sequence_body.
Proof. repeat constructor. Qed.

Lemma p0500063b_straight : straight_line p0500063b_init_sequence_body.
Proof. repeat constructor. Qed.

(** Every init sequence the descriptors point to runs as a [seq_run]. *)
Lemma init_sequence_run (f : init_fn) (s : state) :
  exists evs ret logs,
    call_init_sequence f s
    = (ret, {| ctx := ctx s; respond := respond s;
               trace := trace s ++ evs; dmesg := dmesg s ++ logs |}) /\
    seq_run evs ret.
Proof.
  destruct f; cbn [call_init_sequence]; apply straight_line_run.
  - exact jh057n_straight.
  - exact xbd599_straight.
  - exact p0500063b_straight.
Qed.

(** ** Enable *)

Lemma st7703_enable_run (s : state) :
  enable_run s (fst (st7703_enable s)) (snd (st7703_enable s)) /\
  prepared (ctx (snd (st7703_enable s))) = prepared (ctx s).
Proof.
  open_state s. unfold st7703_enable. run_c.
  match goal with
  | |- context [ call_init_sequence ?f ?s0 ] =>
      destruct (init_sequence_run f s0) as (evs & ri & logs & -> & Hrun)
  end.
  run_c.
  destruct (Z.ltb_spec ri 0) as [Hneg | Hpos]; run_c.
  - split; [| reflexivity].
    eapply enable_init_failed; eauto. solve_since.
  - assert (ri = 0) as -> by (destruct (seq_run_ret _ _ Hrun); lia).
    match goal with
    | |- context [ ?r <? 0 ] => destruct (Z.ltb_spec r 0) as [Hs | Hs]
    end; run_c.
    + split; [| reflexivity].
      eapply enable_exit_sleep_failed; eauto. solve_since.
    + split; [| reflexivity].
      rewrite <- ?app_assoc in *. cbn [app] in *.
      eapply (enable_done _ _ _ evs); [exact Hrun | | reflexivity | | ].
      3: { apply since_app. cbn [trace]. rewrite <- ?app_assoc. cbn [app].
           unfold enable_tail. reflexivity. }
      * exact Hs.
      * unfold answer. cbn [trace respond]. reflexivity.
Qed.


(** A run that returned an error holds the write that failed with it. *)
Lemma seq_run_failed (evs : list event) (ret : Z) :
  seq_run evs ret -> ret < 0 ->
  exists e, In e evs /\ is_codec_write e = true /\ ev_ret e = ret.
Proof.
  induction 1 as [| d r evs' ret' Hr Hrun' IH | d r Hr
                  | c d r evs' ret' Hr Hrun' IH | c d r Hr
                  | n evs' ret' Hrun' IH]; intros Hneg.
  - lia.
  - destruct (IH Hneg) as (e & Hin & Hw & He). exists e. cbn; auto.
  - eexists. cbn; eauto.
  - destruct (IH Hneg) as (e & Hin & Hw & He). exists e. cbn; auto.
  - eexists. cbn; eauto.
  - destruct (IH Hneg) as (e & Hin & Hw & He). exists e. cbn; auto.
Qed.

(** C2 as stated fails: when the host fails the display-on command and
    nothing else, [st7703_enable] returns 0, not the error. *)
Lemma st7703_enable_swallows_display_on :
  let s := boot (both_rails true p0500063b_desc) display_on_fails in
  prepared (ctx s) = true /\
  In (Ev mipi_dsi_dcs_set_display_on (- EIO))
     (since s (snd (st7703_enable s))) /\
  fst (st7703_enable s) = 0 /\
  ~ spec_enable_returns_failures s.
Proof.
  intros s.
  assert (Hin : In (Ev mipi_dsi_dcs_set_display_on (- EIO))
                   (since s (snd (st7703_enable s)))).
  { apply (nth_error_In _ 48). vm_compute. reflexivity. }
  assert (Hret : fst (st7703_enable s) = 0) by (vm_compute; reflexivity).
  split; [reflexivity |]. split; [exact Hin |]. split; [exact Hret |].
  intros H. specialize (H _ Hin eq_refl eq_refl).
  rewrite Hret in H. discriminate H.
Qed.

(** C2, amended: [st7703_enable] never changes [prepared]; if a command
    of the init sequence or the exit-sleep command failed, its error is
    the value returned; if none of those failed, 0 is returned, whatever
    the display-on command answered. *)
Theorem st7703_enable_errors (s : state) :
  prepared (ctx (snd (st7703_enable s))) = prepared (ctx s) /\
  (forall e, In e (since s (snd (st7703_enable s))) ->
             is_init_or_exit_sleep e = true -> ev_ret e < 0 ->
             fst (st7703_enable s) = ev_ret e) /\
  ((forall e, In e (since s (snd (st7703_enable s))) ->
              is_init_or_exit_sleep e = true -> 0 <= ev_ret e) ->
   fst (st7703_enable s) = 0).
Proof.
  destruct (st7703_enable_run s) as [Hrun Hp]. split; [exact Hp |].
  assert (Hinit : forall evs ret e,
             seq_run evs ret -> In e evs ->
             is_init_or_exit_sleep e = true -> ev_ret e < 0 ->
             ret = ev_ret e).
  { intros evs ret e Hr Hin Hstep Hneg.
    destruct (seq_run_calls _ _ Hr e Hin) as [Hw | [n Hn]].
    - eapply seq_run_error; eauto.
    - unfold is_init_or_exit_sleep in Hstep. rewrite Hn in Hstep.
      discriminate Hstep. }
  destruct Hrun as [evs Hr Hneg -> | evs Hr Hneg -> | evs rs ra rb rc Hr Hrs -> _ ->].
  - split.
    + intros e Hin Hstep He. eapply Hinit; eauto.
    + intros Hall. destruct (seq_run_failed _ _ Hr Hneg) as (e & Hin & Hw & He).
      assert (0 <= ev_ret e); [| lia].
      apply Hall; [exact Hin |].
      unfold is_init_or_exit_sleep. unfold is_codec_write in Hw.
      destruct (ev_call e); try discriminate Hw; reflexivity.
  - split.
    + intros e Hin Hstep He. apply in_app_or in Hin as [Hin | Hin].
      * pose proof (Hinit _ _ _ Hr Hin Hstep He). lia.
      * destruct Hin as [<- | [<- | []]]; [discriminate Hstep | reflexivity].
    + intros Hall.
      assert (0 <= ev_ret (Ev mipi_dsi_dcs_exit_sleep_mode (fst (st7703_enable s))));
        [| cbn in *; lia].
      apply Hall; [| reflexivity]. apply in_or_app. right. cbn. auto.
  - split; [| reflexivity].
    intros e Hin Hstep He. apply in_app_or in Hin as [Hin | Hin].
    + pose proof (Hinit _ _ _ Hr Hin Hstep He). lia.
    + unfold enable_tail in Hin.
      repeat (destruct Hin as [<- | Hin]; [try discriminate Hstep; cbn in He; lia |]).
      destruct Hin.
Qed.

Lemma st7703_enable_errors_witness :
  let s1 := boot (both_rails true p0500063b_desc) third_write_fails in
  let s2 := boot (both_rails true p0500063b_desc) display_on_fails in
  fst (st7703_enable s1) = - EIO /\ fst (st7703_enable s2) = 0.
Proof.
  intros s1 s2. split.
  - apply (proj1 (proj2 (st7703_enable_errors s1))
             (Ev (mipi_dsi_dcs_write ST7703_CMD_SETDISP [0x78; 0x13; 0xF0])
                 (- EIO))).
    + apply (nth_error_In _ 4). vm_compute. reflexivity.
    + reflexivity.
    + reflexivity.
  - apply (proj2 (proj2 (st7703_enable_errors s2))).
    assert (Hall : forallb (fun e => negb (is_init_or_exit_sleep e)
                                     || (0 <=? ev_ret e))
                           (since s2 (snd (st7703_enable s2))) = true)
      by (vm_compute; reflexivity).
    intros e Hin Hstep.
    pose proof (proj1 (forallb_forall _ _) Hall e Hin) as He.
    cbv beta in He. rewrite Hstep in He. cbn in He. lia.
Defined.

(** C6: for each of the three init sequences, if its [k]-th codec write
    failed, the sequence returns that write's error, that write is its
    last codec call, and nothing but the write's own settle delay follows
    it.  [st7703_enable] then returns the same error, leaves [prepared] as
    it was, and makes no further call: no later command of the sequence,
    no exit-sleep, no display-on. *)
Theorem init_sequence_fail_fast (f : init_fn) (s : state) (k : nat) (e : event) :
  (nth_error (codec_calls (since s (snd (call_init_sequence f s)))) k = Some e ->
   ev_ret e < 0 ->
   fst (call_init_sequence f s) = ev_ret e /\
   List.length (codec_calls (since s (snd (call_init_sequence f s)))) = S k /\
   exists pre, since s (snd (call_init_sequence f s)) = pre ++ e :: settle e) /\
  (nth_error (codec_calls (since s (snd (st7703_enable s)))) k = Some e ->
   ev_ret e < 0 ->
   fst (st7703_enable s) = ev_ret e /\
   prepared (ctx (snd (st7703_enable s))) = prepared (ctx s) /\
   List.length (codec_calls (since s (snd (st7703_enable s)))) = S k /\
   exists pre, since s (snd (st7703_enable s)) = pre ++ e :: settle e).
Proof.
  split.
  - destruct (init_sequence_run f s) as (evs & ret & logs & -> & Hrun).
    cbn [fst snd]. rewrite (since_app _ _ evs) by reflexivity.
    intros Hk Hneg. exact (seq_run_fail_fast _ _ Hrun k e Hk Hneg).
  - destruct (st7703_enable_run s) as [Hrun Hp].
    assert (Hok : forall evs tl,
               seq_run evs 0 -> codec_calls tl = [] ->
               nth_error (codec_calls (evs ++ tl)) k = Some e ->
               ev_ret e < 0 -> False).
    { intros evs tl Hr Htl Hk Hneg. unfold codec_calls in *.
      rewrite filter_app, Htl, app_nil_r in Hk.
      destruct (seq_run_fail_fast _ _ Hr k e Hk Hneg) as [H0 _]. lia. }
    destruct Hrun as [evs Hr Hneg -> | evs Hr Hneg -> | evs rs ra rb rc Hr Hrs -> _ ->];
      intros Hk He.
    + destruct (seq_run_fail_fast _ _ Hr k e Hk He) as (H1 & H2 & H3).
      exact (conj H1 (conj Hp (conj H2 H3))).
    + exfalso. refine (Hok evs _ Hr _ Hk He). reflexivity.
    + exfalso. refine (Hok evs _ Hr _ Hk He). reflexivity.
Qed.

Lemma init_sequence_fail_fast_witness :
  let s := boot (both_rails true p0500063b_desc) third_write_fails in
  let e := Ev (mipi_dsi_dcs_write ST7703_CMD_SETDISP [0x78; 0x13; 0xF0])
              (- EIO) in
  fst (st7703_enable s) = - EIO /\
  prepared (ctx (snd (st7703_enable s))) = true /\
  List.length (codec_calls (since s (snd (st7703_enable s)))) = 3%nat /\
  exists pre, since s (snd (st7703_enable s)) = pre ++ [e; Ev (msleep 20) 0].
Proof.
  intros s e.
  apply (proj2 (init_sequence_fail_fast p0500063b_init_sequence_fn s 2 e));
    vm_compute; reflexivity.
Defined.

(** C8: the macro [dsi_dcs_write_seq] does the write, then sleeps 20 ms,
    then looks at the result, so the sleep is there whether the write
    failed or not; and in every run of an init sequence, and of
    [st7703_enable], each DCS write is directly followed by its 20 ms. *)
Theorem dsi_dcs_write_seq_settles (cmd : Z) (d : list Z) (f : init_fn) (s : state) :
  (let r := respond s (trace s) (mipi_dsi_dcs_write cmd d) in
   dsi_dcs_write_seq cmd d s
   = (if r <? 0 then Return r else Next tt,
      {| ctx := ctx s; respond := respond s;
         trace := trace s ++ [Ev (mipi_dsi_dcs_write cmd d) r;
                              Ev (msleep 20) 0];
         dmesg := dmesg s |})) /\
  dcs_settled (since s (snd (call_init_sequence f s))) = true /\
  dcs_settled (since s (snd (st7703_enable s))) = true.
Proof.
  repeat split.
  - run_c. rewrite <- app_assoc. destruct (_ <? 0); reflexivity.
  - destruct (init_sequence_run f s) as (evs & ret & logs & -> & Hrun).
    cbn [snd]. rewrite (since_app _ _ evs) by reflexivity.
    exact (seq_run_settled _ _ Hrun).
  - destruct (st7703_enable_run s) as [Hrun _].
    destruct Hrun as [evs Hr _ -> | evs Hr _ -> | evs rs ra rb rc Hr _ _ _ ->].
    + exact (seq_run_settled _ _ Hr).
    + rewrite dcs_settled_app by exact (seq_run_settled _ _ Hr). reflexivity.
    + rewrite dcs_settled_app by exact (seq_run_settled _ _ Hr). reflexivity.
Qed.

(** C10: [xbd599_init_sequence] returns 0 and leaves the machine as it
    was: no bus transaction, no sleep.  On a panel with the xbd599
    descriptor [st7703_enable] therefore makes no codec write at all; its
    first calls are the 20 ms sleep and the exit-sleep command. *)
Theorem xbd599_init_sends_nothing (s : state) :
  xbd599_init_sequence s = (0, s) /\
  (desc (ctx s) = xbd599_desc ->
   codec_calls (since s (snd (st7703_enable s))) = [] /\
   exists rest,
     since s (snd (st7703_enable s))
     = Ev (msleep 20) 0
       :: Ev mipi_dsi_dcs_exit_sleep_mode
             (answer s [Ev (msleep 20) 0] mipi_dsi_dcs_exit_sleep_mode)
       :: rest).
Proof.
  split; [destruct s; reflexivity |].
  open_state s. intros ->. unfold answer. cbn [trace respond].
  unfold st7703_enable. run_c.
  cbn [xbd599_desc init_sequence call_init_sequence].
  unfold xbd599_init_sequence, xbd599_init_sequence_body. run_c.
  change (0 <? 0) with false. run_c.
  destruct (_ <? 0); run_c;
    erewrite since_app by (flatten_trace; reflexivity);
    (split; [reflexivity | eexists; reflexivity]).
Qed.

Lemma xbd599_init_sends_nothing_witness :
  let s := boot (both_rails true xbd599_desc) all_ok in
  codec_calls (since s (snd (st7703_enable s))) = [] /\
  exists rest,
    since s (snd (st7703_enable s))
    = Ev (msleep 20) 0 :: Ev mipi_dsi_dcs_exit_sleep_mode 0 :: rest.
Proof.
  intros s. apply (proj2 (xbd599_init_sends_nothing s)). reflexivity.
Defined.

(** ** More on power-up and power-down *)

(** X1: when the primary rail cannot be enabled, [st7703_prepare] returns
    that error after this one call: the secondary rail and the reset line
    are not touched, and the panel stays unprepared. *)
Theorem st7703_prepare_vcc_failure (s : state) (a : supply) :
  prepared (ctx s) = false ->
  vcc (ctx s) = REG a ->
  answer s [] (regulator_enable (REG a)) < 0 ->
  fst (st7703_prepare s) = answer s [] (regulator_enable (REG a)) /\
  prepared (ctx (snd (st7703_prepare s))) = false /\
  since s (snd (st7703_prepare s))
  = [Ev (regulator_enable (REG a)) (answer s [] (regulator_enable (REG a)))].
Proof.
  intros Hp Hv. open_state s. subst. unfold answer. cbn [trace respond].
  rewrite app_nil_r. intros Hneg.
  unfold st7703_prepare. run_c.
  destruct (Z.ltb_spec (respond0 trace0 (regulator_enable (REG a))) 0);
    [| lia].
  run_c. repeat split. solve_since.
Qed.

Lemma st7703_prepare_vcc_failure_witness :
  let s := boot (both_rails false p0500063b_desc) vcc_broken in
  fst (st7703_prepare s) = - EINVAL /\
  prepared (ctx (snd (st7703_prepare s))) = false /\
  since s (snd (st7703_prepare s))
  = [Ev (regulator_enable (REG vcc_supply)) (- EINVAL)].
Proof.
  intros s.
  apply (st7703_prepare_vcc_failure s vcc_supply); reflexivity.
Defined.

(** X2: [st7703_prepare] never returns a positive value, and it returns 0
    exactly when the panel is marked prepared once it is back. *)
Theorem st7703_prepare_result (s : state) :
  fst (st7703_prepare s) <= 0 /\
  (fst (st7703_prepare s) = 0 <->
   prepared (ctx (snd (st7703_prepare s))) = true).
Proof.
  open_state s. unfold st7703_prepare. run_c.
  destruct prepared0; run_c; [split; [lia | tauto] |].
  destruct (IS_ERR_OR_NULL vcc0); run_c.
  - destruct (IS_ERR_OR_NULL iovcc0); run_c; [split; [lia | tauto] |].
    destruct (Z.ltb_spec (respond0 trace0 (regulator_enable iovcc0)) 0);
      run_c; (split; [lia | split; intros E; (reflexivity || discriminate E || lia)]).
  - destruct (Z.ltb_spec (respond0 trace0 (regulator_enable vcc0)) 0);
      run_c; [split; [lia | split; intros E; (discriminate E || lia)] |].
    destruct (IS_ERR_OR_NULL iovcc0); run_c; [split; [lia | tauto] |].
    match goal with
    | |- context [ ?r <? 0 ] => destruct (Z.ltb_spec r 0)
    end; run_c;
      (split; [lia | split; intros E; (reflexivity || discriminate E || lia)]).
Qed.

(** X3: with no primary rail (a NULL or error handle in [ctx->vcc]), a
    failing enable of the secondary rail sends [st7703_prepare] to its
    [disable_vcc] label all the same: it hands the absent handle to
    [regulator_disable], then returns the error with the panel
    unprepared. *)
Theorem st7703_prepare_rollback_absent_vcc (s : state) (b : supply) :
  prepared (ctx s) = false ->
  IS_ERR_OR_NULL (vcc (ctx s)) = true ->
  iovcc (ctx s) = REG b ->
  answer s [] (regulator_enable (REG b)) < 0 ->
  fst (st7703_prepare s) = answer s [] (regulator_enable (REG b)) /\
  prepared (ctx (snd (st7703_prepare s))) = false /\
  map ev_call (since s (snd (st7703_prepare s)))
  = [regulator_enable (REG b); regulator_disable (vcc (ctx s))].
Proof.
  intros Hp Hv Hio. open_state s. subst. unfold answer. cbn [trace respond].
  rewrite app_nil_r. intros Hneg.
  unfold st7703_prepare. run_c. rewrite Hv. run_c.
  destruct (Z.ltb_spec (respond0 trace0 (regulator_enable (REG b))) 0);
    [| lia].
  run_c. repeat split.
  erewrite since_app by (flatten_trace; reflexivity). reflexivity.
Qed.

Lemma st7703_prepare_rollback_absent_vcc_witness :
  let s := boot (panel REG_NULL (REG iovcc_supply) false p0500063b_desc)
                iovcc_broken in
  fst (st7703_prepare s) = - EINVAL /\
  prepared (ctx (snd (st7703_prepare s))) = false /\
  map ev_call (since s (snd (st7703_prepare s)))
  = [regulator_enable (REG iovcc_supply); regulator_disable REG_NULL].
Proof.
  intros s.
  apply (st7703_prepare_rollback_absent_vcc s iovcc_supply); reflexivity.
Defined.

(** X4: one full power cycle.  After a [st7703_prepare] that succeeded and
    the [st7703_unprepare] that follows it, the primary rail has been
    enabled once and disabled never, while the secondary rail is back
    off; the panel is unprepared and the reset line asserted. *)
Theorem prepare_unprepare_cycle (s : state) (a b : supply) :
  prepared (ctx s) = false ->
  vcc (ctx s) = REG a ->
  iovcc (ctx s) = REG b ->
  fst (st7703_prepare s) = 0 ->
  let s1 := snd (st7703_prepare s) in
  let s2 := snd (st7703_unprepare s1) in
  map ev_call (since s s2)
  = [regulator_enable (REG a); regulator_enable (REG b);
     gpiod_set_value_cansleep 1; msleep 20;
     gpiod_set_value_cansleep 0; msleep 120;
     gpiod_set_value_cansleep 1; regulator_disable (REG b); msleep 40] /\
  prepared (ctx s2) = false /\
  reset_level (trace s2) = Some 1.
Proof.
  intros Hp Hv Hio. open_state s. subst.
  unfold st7703_prepare. run_c.
  destruct (Z.ltb_spec (respond0 trace0 (regulator_enable (REG a))) 0);
    run_c; [intros E; lia |].
  match goal with
  | |- context [ ?r <? 0 ] => destruct (Z.ltb_spec r 0)
  end; run_c; [intros E; lia |].
  intros _. unfold st7703_unprepare. run_c. repeat split.
  - erewrite since_app by (flatten_trace; reflexivity). reflexivity.
  - unfold reset_level. rewrite !fold_left_app. reflexivity.
Qed.

Lemma prepare_unprepare_cycle_witness :
  let s := boot (both_rails false p0500063b_desc) all_ok in
  let s2 := snd (st7703_unprepare (snd (st7703_prepare s))) in
  map ev_call (since s s2)
  = [regulator_enable (REG vcc_supply); regulator_enable (REG iovcc_supply);
     gpiod_set_value_cansleep 1; msleep 20;
     gpiod_set_value_cansleep 0; msleep 120;
     gpiod_set_value_cansleep 1; regulator_disable (REG iovcc_supply);
     msleep 40] /\
  prepared (ctx s2) = false /\
  reset_level (trace s2) = Some 1.
Proof.
  intros s.
  apply (prepare_unprepare_cycle s vcc_supply iovcc_supply); reflexivity.
Defined.

(** X5: a panel wired without rails (both handles NULL or error values)
    is powered by the reset line alone: [st7703_prepare] cannot fail and
    pulses reset, [st7703_unprepare] asserts it, and neither makes a
    regulator call. *)
Theorem no_rails_no_regulator_calls (s : state) :
  IS_ERR_OR_NULL (vcc (ctx s)) = true ->
  IS_ERR_OR_NULL (iovcc (ctx s)) = true ->
  (prepared (ctx s) = false ->
   fst (st7703_prepare s) = 0 /\
   map ev_call (since s (snd (st7703_prepare s)))
   = [gpiod_set_value_cansleep 1; msleep 20;
      gpiod_set_value_cansleep 0; msleep 120]) /\
  (prepared (ctx s) = true ->
   map ev_call (since s (snd (st7703_unprepare s)))
   = [gpiod_set_value_cansleep 1; msleep 40]).
Proof.
  intros Hv Hio. open_state s. split; intros ->.
  - unfold st7703_prepare. run_c. rewrite Hv, Hio. run_c.
    split; [reflexivity |].
    erewrite since_app by (flatten_trace; reflexivity). reflexivity.
  - unfold st7703_unprepare. run_c. rewrite Hio. run_c.
    erewrite since_app by (flatten_trace; reflexivity). reflexivity.
Qed.

Lemma no_rails_no_regulator_calls_witness :
  let sp := boot (panel REG_NULL (REG_ERR (-19)) false p0500063b_desc) all_fail in
  let su := boot (panel REG_NULL (REG_ERR (-19)) true p0500063b_desc) all_fail in
  (fst (st7703_prepare sp) = 0 /\
   map ev_call (since sp (snd (st7703_prepare sp)))
   = [gpiod_set_value_cansleep 1; msleep 20;
      gpiod_set_value_cansleep 0; msleep 120]) /\
  map ev_call (since su (snd (st7703_unprepare su)))
  = [gpiod_set_value_cansleep 1; msleep 40].
Proof.
  intros sp su. split.
  - apply (proj1 (no_rails_no_regulator_calls sp eq_refl eq_refl)).
    reflexivity.
  - apply (proj2 (no_rails_no_regulator_calls su eq_refl eq_refl)).
    reflexivity.
Defined.

(** ** More on the init sequences *)

(** Machines that differ in the panel object only. *)
Lemma straight_line_ctx (b : body) :
  straight_line b ->
  forall s c,
    define b (with_ctx c s)
    = (fst (define b s), with_ctx c (snd (define b s))).
Proof.
  induction 1 as [| d k Hk IH | cmd d k Hk IH | n k Hk IH | fmt args k Hk IH];
    intros s c.
  - reflexivity.
  - rewrite !define_generic. cbv zeta. cbn [with_ctx ctx respond trace dmesg].
    destruct (_ <? 0); [reflexivity |].
    match goal with
    | |- _ = (fst (define k ?y), _) => exact (IH y c)
    end.
  - rewrite !define_dcs. cbv zeta. cbn [with_ctx ctx respond trace dmesg].
    destruct (_ <? 0); [reflexivity |].
    match goal with
    | |- _ = (fst (define k ?y), _) => exact (IH y c)
    end.
  - rewrite !define_msleep.
    match goal with
    | |- _ = (fst (define k ?y), _) => exact (IH y c)
    end.
  - rewrite !define_dev_err.
    match goal with
    | |- _ = (fst (define k ?y), _) => exact (IH y c)
    end.
Qed.

(** Against a run in which nothing fails, any other run of the same body
    makes the same calls up to the point where it stops. *)
Lemma straight_line_prefix (b : body) :
  straight_line b ->
  forall s s0,
    (forall h c, respond s0 h c = 0) ->
    exists evs evs0 ret logs logs0,
      define b s = (ret, {| ctx := ctx s; respond := respond s;
                            trace := trace s ++ evs;
                            dmesg := dmesg s ++ logs |}) /\
      define b s0 = (0, {| ctx := ctx s0; respond := respond s0;
                           trace := trace s0 ++ evs0;
                           dmesg := dmesg s0 ++ logs0 |}) /\
      (exists rest, map ev_call evs0 = map ev_call evs ++ rest) /\
      (ret = 0 -> map ev_call evs = map ev_call evs0).
Proof.
  induction 1 as [| d k Hk IH | cmd d k Hk IH | n k Hk IH | fmt args k Hk IH];
    intros s s0 Hok.
  - exists [], [], 0, [], [].
    repeat split; try (exists []; reflexivity);
      destruct s, s0; cbn; now rewrite !app_nil_r.
  - rewrite !define_generic. cbv zeta. rewrite (Hok (trace s0)).
    change (0 <? 0) with false. cbv iota.
    set (r := respond s (trace s) (mipi_dsi_generic_write d)).
    destruct (IH (log_events [Ev (mipi_dsi_generic_write d) r] s)
                 (log_events [Ev (mipi_dsi_generic_write d) 0] s0) Hok)
      as (evs & evs0 & ret & logs & logs0 & E & E0 & [rest Hpre] & Hfull).
    unfold log_events in E, E0. cbn [ctx respond trace dmesg] in E, E0.
    rewrite E0. clear E0.
    destruct (Z.ltb_spec r 0) as [Hneg | Hpos].
    + eexists [_], (_ :: evs0), _, [], logs0. repeat split.
      * now rewrite app_nil_r.
      * now rewrite <- app_assoc.
      * eexists. cbn [map ev_call app]. reflexivity.
      * intros ->. lia.
    + rewrite E. eexists (_ :: evs), (_ :: evs0), ret, logs, logs0.
      repeat split.
      * now rewrite <- app_assoc.
      * now rewrite <- app_assoc.
      * exists rest. cbn [map ev_call app]. now rewrite Hpre.
      * intros Hr. cbn [map ev_call]. now rewrite (Hfull Hr).
  - rewrite !define_dcs. cbv zeta. rewrite (Hok (trace s0)).
    change (0 <? 0) with false. cbv iota.
    set (r := respond s (trace s) (mipi_dsi_dcs_write cmd d)).
    destruct (IH (log_events [Ev (mipi_dsi_dcs_write cmd d) r;
                              Ev (msleep 20) 0] s)
                 (log_events [Ev (mipi_dsi_dcs_write cmd d) 0;
                              Ev (msleep 20) 0] s0) Hok)
      as (evs & evs0 & ret & logs & logs0 & E & E0 & [rest Hpre] & Hfull).
    unfold log_events in E, E0. cbn [ctx respond trace dmesg] in E, E0.
    rewrite E0. clear E0.
    destruct (Z.ltb_spec r 0) as [Hneg | Hpos].
    + eexists [_; _], (_ :: _ :: evs0), _, [], logs0. repeat split.
      * now rewrite app_nil_r.
      * now rewrite <- app_assoc.
      * eexists. cbn [map ev_call app]. reflexivity.
      * intros ->. lia.
    + rewrite E. eexists (_ :: _ :: evs), (_ :: _ :: evs0), ret, logs, logs0.
      repeat split.
      * now rewrite <- app_assoc.
      * now rewrite <- app_assoc.
      * exists rest. cbn [map ev_call app]. now rewrite Hpre.
      * intros Hr. cbn [map ev_call]. now rewrite (Hfull Hr).
  - rewrite !define_msleep.
    destruct (IH (log_events [Ev (msleep n) 0] s)
                 (log_events [Ev (msleep n) 0] s0) Hok)
      as (evs & evs0 & ret & logs & logs0 & E & E0 & [rest Hpre] & Hfull).
    unfold log_events in E, E0. cbn [ctx respond trace dmesg] in E, E0.
    rewrite E, E0. clear E E0.
    eexists (_ :: evs), (_ :: evs0), ret, logs, logs0. repeat split.
    + now rewrite <- app_assoc.
    + now rewrite <- app_assoc.
    + exists rest. cbn [map ev_call app]. now rewrite Hpre.
    + intros Hr. cbn [map ev_call]. now rewrite (Hfull Hr).
  - rewrite !define_dev_err.
    destruct (IH (log_line (Log KERN_ERR fmt args) s)
                 (log_line (Log KERN_ERR fmt args) s0) Hok)
      as (evs & evs0 & ret & logs & logs0 & E & E0 & [rest Hpre] & Hfull).
    unfold log_line in E, E0. cbn [ctx respond trace dmesg] in E, E0.
    rewrite E, E0. clear E E0.
    eexists evs, evs0, ret, (_ :: logs), (_ :: logs0). repeat split.
    + now rewrite <- app_assoc.
    + now rewrite <- app_assoc.
    + exists rest. exact Hpre.
    + exact Hfull.
Qed.

Lemma init_fn_straight (f : init_fn) :
  exists b, call_init_sequence f = define b /\ straight_line b.
Proof.
  destruct f; eexists; (split; [reflexivity |]).
  - exact jh057n_straight.
  - exact xbd599_straight.
  - exact p0500063b_straight.
Qed.

(** Whatever the environment, an init sequence makes an initial part of
    the calls of [command_list], all of them if it returns 0. *)
Lemma init_sequence_prefix (f : init_fn) (s : state) :
  (exists rest,
      command_list f
      = map ev_call (since s (snd (call_init_sequence f s))) ++ rest) /\
  (fst (call_init_sequence f s) = 0 ->
   map ev_call (since s (snd (call_init_sequence f s))) = command_list f).
Proof.
  destruct (init_fn_straight f) as (b & Eb & Hb).
  unfold command_list. rewrite Eb.
  destruct (straight_line_prefix b Hb s
              (boot (both_rails true p0500063b_desc) all_ok))
    as (evs & evs0 & ret & logs & logs0 & E & E0 & Hpre & Hfull);
    [reflexivity |].
  rewrite E, E0. cbn [fst snd trace boot app].
  rewrite (since_app _ _ evs) by reflexivity.
  split; assumption.
Qed.

Lemma init_sequence_ctx (f : init_fn) (s : state) (c : st7703) :
  call_init_sequence f (with_ctx c s)
  = (fst (call_init_sequence f s), with_ctx c (snd (call_init_sequence f s))).
Proof.
  destruct (init_fn_straight f) as (b & -> & Hb).
  apply straight_line_ctx, Hb.
Qed.

(** X6: the commands of an init sequence do not depend on what the host
    answers.  Whatever the environment, the calls made are an initial part
    of the one list the sequence sends when nothing fails (nothing is
    skipped, repeated or reordered), and they are the whole list when the
    sequence returns 0.  That list holds 14 writes for jh057n, none for
    xbd599 and 22 for p0500063b. *)
Theorem init_sequence_sends_command_list (f : init_fn) (s : state) :
  (exists rest,
      command_list f
      = map ev_call (since s (snd (call_init_sequence f s))) ++ rest) /\
  (fst (call_init_sequence f s) = 0 ->
   map ev_call (since s (snd (call_init_sequence f s))) = command_list f) /\
  map (fun g => List.length (filter is_write_call (command_list g)))
      [jh057n_init_sequence_fn; xbd599_init_sequence_fn;
       p0500063b_init_sequence_fn]
  = [14; 0; 22]%nat.
Proof.
  destruct (init_sequence_prefix f s) as [Hpre Hfull].
  split; [exact Hpre |]. split; [exact Hfull |]. vm_compute. reflexivity.
Qed.

Lemma init_sequence_sends_command_list_witness :
  let s := boot (both_rails true p0500063b_desc) third_write_fails in
  let ok := boot (both_rails false jh057n00900_panel_desc) all_ok in
  map ev_call (since ok (snd (call_init_sequence jh057n_init_sequence_fn ok)))
  = command_list jh057n_init_sequence_fn /\
  exists rest,
    command_list p0500063b_init_sequence_fn
    = map ev_call (since s (snd (call_init_sequence p0500063b_init_sequence_fn s)))
      ++ rest.
Proof.
  intros s ok. split.
  - apply (proj1 (proj2 (init_sequence_sends_command_list jh057n_init_sequence_fn ok))).
    vm_compute. reflexivity.
  - apply (proj1 (init_sequence_sends_command_list p0500063b_init_sequence_fn s)).
Defined.

(** ** More on enable and disable *)

(** [st7703_enable] seen as its init sequence, run from a machine with the
    same trace and environment, followed by what the callback adds. *)
Lemma st7703_enable_shape (s : state) :
  exists s0,
    let f := init_sequence (desc (ctx s)) in
    let ri := fst (call_init_sequence f s0) in
    let evs := since s0 (snd (call_init_sequence f s0)) in
    let r := fst (st7703_enable s) in
    let new := since s (snd (st7703_enable s)) in
    trace (snd (st7703_enable s)) = trace s ++ new /\
    seq_run evs ri /\
    ((ri < 0 /\ r = ri /\ new = evs) \/
     (ri = 0 /\ r < 0 /\
      new = evs ++ [Ev (msleep 20) 0; Ev mipi_dsi_dcs_exit_sleep_mode r]) \/
     (ri = 0 /\ r = 0 /\
      exists rs ra rb rc, 0 <= rs /\ new = evs ++ enable_tail rs ra rb rc)).
Proof.
  open_state s. unfold st7703_enable. run_c.
  match goal with
  | |- context [ call_init_sequence ?f ?s0 ] =>
      exists s0;
      destruct (init_sequence_run f s0) as (evs & ri & logs & E & Hrun)
  end.
  cbn [ctx respond trace dmesg] in E. cbv zeta. rewrite !E. run_c.
  destruct (Z.ltb_spec ri 0) as [Hneg | Hpos]; run_c.
  - unfold since. cbn [trace]. rewrite !skipn_length_app.
    split; [reflexivity |]. split; [exact Hrun |]. left. auto.
  - assert (ri = 0) as -> by (destruct (seq_run_ret _ _ Hrun); lia).
    match goal with
    | |- context [ ?r <? 0 ] => destruct (Z.ltb_spec r 0) as [Hs | Hs]
    end; run_c; unfold since; cbn [trace];
      rewrite <- ?app_assoc in *; cbn [app] in *; rewrite !skipn_length_app.
    + split; [reflexivity |]. split; [exact Hrun |]. right. left. auto.
    + split; [reflexivity |]. split; [exact Hrun |].
      right. right. split; [reflexivity |]. split; [reflexivity |].
      do 4 eexists. split; [exact Hs |]. unfold enable_tail. reflexivity.
Qed.

Lemma seq_run_no_power (evs : list event) (ret : Z) :
  seq_run evs ret -> no_power_calls evs = true.
Proof.
  induction 1; cbn; auto.
Qed.

Lemma st7703_enable_no_power (s : state) :
  no_power_calls (since s (snd (st7703_enable s))) = true.
Proof.
  destruct (st7703_enable_shape s) as (s0 & _ & Hrun & H).
  cbv zeta in H. pose proof (seq_run_no_power _ _ Hrun) as Hnp.
  unfold no_power_calls in *.
  destruct H as [(_ & _ & ->) | [(_ & _ & ->) | (_ & _ & rs & ra & rb & rc & _ & ->)]];
    rewrite ?forallb_app, Hnp; reflexivity.
Qed.

Lemma st7703_disable_extends (s : state) :
  ctx (snd (st7703_disable s)) = ctx s /\
  trace (snd (st7703_disable s)) = trace s ++ since s (snd (st7703_disable s)) /\
  no_power_calls (since s (snd (st7703_disable s))) = true.
Proof.
  open_state s. unfold st7703_disable. run_c.
  destruct (_ <? 0); run_c; destruct (_ <? 0); run_c;
    (erewrite since_app by (flatten_trace; reflexivity));
    (repeat split; flatten_trace; reflexivity).
Qed.

(** X7: [st7703_enable] and [st7703_disable] never act on the power
    resources: whatever the environment, no call of theirs drives the
    reset line or enables or disables a regulator. *)
Theorem enable_disable_leave_power_alone (s : state) :
  no_power_calls (since s (snd (st7703_enable s))) = true /\
  no_power_calls (since s (snd (st7703_disable s))) = true.
Proof.
  split.
  - apply st7703_enable_no_power.
  - apply st7703_disable_extends.
Qed.

Lemma reset_level_app (t evs : list event) :
  no_power_calls evs = true -> reset_level (t ++ evs) = reset_level t.
Proof.
  unfold reset_level, no_power_calls. rewrite fold_left_app.
  generalize (fold_left
                (fun lvl e =>
                   match ev_call e with
                   | gpiod_set_value_cansleep v => Some v
                   | _ => lvl
                   end) t None).
  induction evs as [| [c r] evs IH]; intros lvl H; [reflexivity |].
  cbn in H. apply andb_prop in H as [Hc Hrest].
  cbn [fold_left ev_call]. destruct c; try discriminate Hc; apply IH, Hrest.
Qed.

Lemma callback_keeps_reset_released (f : drm_panel_func) (s : state) :
  reset_released_when_prepared s ->
  reset_released_when_prepared (snd (st7703_drm_funcs f s)).
Proof.
  unfold reset_released_when_prepared. destruct f; cbn [st7703_drm_funcs].
  - destruct (st7703_disable_extends s) as (-> & -> & Hnp).
    rewrite (reset_level_app _ _ Hnp). auto.
  - intros Inv. open_state s. unfold st7703_unprepare. run_c.
    destruct prepared0; run_c; [| exact Inv].
    destruct (IS_ERR_OR_NULL iovcc0); run_c; discriminate.
  - intros Inv. open_state s. unfold st7703_prepare. run_c.
    destruct prepared0; run_c; [exact Inv |].
    destruct (IS_ERR_OR_NULL vcc0); run_c.
    + destruct (IS_ERR_OR_NULL iovcc0); run_c.
      * intros _. unfold reset_level. rewrite !fold_left_app. reflexivity.
      * destruct (_ <? 0); run_c; [discriminate |].
        intros _. unfold reset_level. rewrite !fold_left_app. reflexivity.
    + destruct (_ <? 0); run_c; [discriminate |].
      destruct (IS_ERR_OR_NULL iovcc0); run_c.
      * intros _. unfold reset_level. rewrite !fold_left_app. reflexivity.
      * destruct (_ <? 0); run_c; [discriminate |].
        intros _. unfold reset_level. rewrite !fold_left_app. reflexivity.
  - intros Inv.
    destruct (st7703_enable_run s) as [_ Hp]. rewrite Hp.
    destruct (st7703_enable_shape s) as (s0 & -> & _).
    rewrite (reset_level_app _ _ (st7703_enable_no_power s)). exact Inv.
Qed.

(** X8: over any sequence of calls of the four callbacks, from a machine
    where it holds, this stays true: whenever the panel is marked
    prepared, the last thing done to the reset line was to release it. *)
Theorem reset_released_invariant (fs : list drm_panel_func) (s : state) :
  reset_released_when_prepared s ->
  reset_released_when_prepared (after_calls fs s).
Proof.
  revert s. induction fs as [| f fs IH]; intros s Inv; [exact Inv |].
  cbn [after_calls]. apply IH, callback_keeps_reset_released, Inv.
Qed.

Lemma reset_released_invariant_witness :
  let s := boot (both_rails false p0500063b_desc) all_ok in
  let s' := after_calls [func_prepare; func_enable; func_disable;
                         func_unprepare; func_prepare; func_enable] s in
  prepared (ctx s') = true /\ reset_level (trace s') = Some 0.
Proof.
  intros s s'.
  assert (Hp : prepared (ctx s') = true) by (vm_compute; reflexivity).
  split; [exact Hp |].
  apply (reset_released_invariant
           [func_prepare; func_enable; func_disable;
            func_unprepare; func_prepare; func_enable] s);
    [intros H; discriminate H | exact Hp].
Defined.

Lemma slept_app (a b : list call) : slept (a ++ b) = slept a + slept b.
Proof.
  induction a as [| c a IH]; [reflexivity |].
  cbn [app slept fold_right]. fold (slept (a ++ b)). fold (slept a).
  rewrite IH. destruct c; lia.
Qed.

Lemma slept_nonneg (cs : list call) : sleeps_nonneg cs = true -> 0 <= slept cs.
Proof.
  induction cs as [| c cs IH]; [intros _; reflexivity |].
  unfold sleeps_nonneg. cbn [forallb]. intros H.
  apply andb_prop in H as [Hc Hcs]. specialize (IH Hcs).
  cbn [slept fold_right]. fold (slept cs). destruct c; try exact IH. lia.
Qed.

Lemma command_list_sleeps_nonneg (f : init_fn) :
  sleeps_nonneg (command_list f) = true.
Proof.
  destruct f; vm_compute; reflexivity.
Qed.

(** Sleeping in an init sequence, against the run where nothing fails. *)
Lemma init_sequence_sleep (f : init_fn) (s : state) :
  let cs := map ev_call (since s (snd (call_init_sequence f s))) in
  0 <= slept cs <= init_sleep f /\
  (fst (call_init_sequence f s) = 0 -> slept cs = init_sleep f).
Proof.
  cbv zeta. destruct (init_sequence_prefix f s) as [[rest Hpre] Hfull].
  pose proof (command_list_sleeps_nonneg f) as Hnn.
  unfold init_sleep. rewrite Hpre in Hnn |- *.
  unfold sleeps_nonneg in Hnn. rewrite forallb_app in Hnn.
  apply andb_prop in Hnn as [Hcs Hrest].
  apply slept_nonneg in Hcs, Hrest. rewrite slept_app.
  split; [lia |]. intros H0. specialize (Hfull H0). rewrite Hpre in Hfull.
  assert (rest = []) as ->
      by (apply (app_inv_head (map ev_call (since s (snd (call_init_sequence f s)))));
          rewrite app_nil_r; symmetry; exact Hfull).
  cbn. lia.
Qed.

(** X9: how long [st7703_enable] sleeps.  Whatever the environment, the
    [msleep] calls of one [st7703_enable] add up to at most what its init
    sequence sleeps when nothing fails plus 140 ms, and to exactly that
    when it returns 0; the init sequences sleep 20 ms (jh057n), 0 ms
    (xbd599) and 440 ms (p0500063b). *)
Theorem st7703_enable_sleep_budget (s : state) :
  let total := slept (map ev_call (since s (snd (st7703_enable s)))) in
  let budget := init_sleep (init_sequence (desc (ctx s))) + 140 in
  (0 <= total <= budget /\ (fst (st7703_enable s) = 0 -> total = budget)) /\
  init_sleep jh057n_init_sequence_fn = 20 /\
  init_sleep xbd599_init_sequence_fn = 0 /\
  init_sleep p0500063b_init_sequence_fn = 440.
Proof.
  cbv zeta. split; [| repeat split; vm_compute; reflexivity].
  destruct (st7703_enable_shape s) as (s0 & _ & _ & H). cbv zeta in H.
  destruct (init_sequence_sleep (init_sequence (desc (ctx s))) s0)
    as [Hle Heq]. cbv zeta in Hle, Heq.
  destruct H as [(Hri & Hr & ->) | [(Hri & Hr & ->) | (Hri & Hr & rs & ra & rb & rc & _ & ->)]].
  - split; [lia | lia].
  - specialize (Heq Hri). rewrite map_app, slept_app, Heq. cbn. lia.
  - specialize (Heq Hri). rewrite map_app, slept_app, Heq. cbn. lia.
Qed.

Lemma st7703_enable_sleep_budget_witness :
  let s := boot (both_rails true p0500063b_desc) all_ok in
  slept (map ev_call (since s (snd (st7703_enable s)))) = 580.
Proof.
  intros s.
  apply (proj2 (proj1 (st7703_enable_sleep_budget s))).
  vm_compute. reflexivity.
Defined.

Lemma seq_run_no_display_on (evs : list event) (ret : Z) :
  seq_run evs ret -> display_on_count evs = 0%nat.
Proof.
  induction 1; cbn; auto.
Qed.

Lemma display_on_count_app (a b : list event) :
  display_on_count (a ++ b) = (display_on_count a + display_on_count b)%nat.
Proof.
  unfold display_on_count. now rewrite filter_app, length_app.
Qed.

(** X10: [st7703_enable] never returns a positive value; a call that
    returns an error has not sent the display-on command, and a call that
    returns 0 has sent it exactly once. *)
Theorem st7703_enable_display_on (s : state) :
  fst (st7703_enable s) <= 0 /\
  (fst (st7703_enable s) < 0 ->
   display_on_count (since s (snd (st7703_enable s))) = 0%nat) /\
  (fst (st7703_enable s) = 0 ->
   display_on_count (since s (snd (st7703_enable s))) = 1%nat).
Proof.
  destruct (st7703_enable_shape s) as (s0 & _ & Hrun & H). cbv zeta in H.
  pose proof (seq_run_no_display_on _ _ Hrun) as Hnone.
  destruct H as [(Hri & Hr & ->) | [(Hri & Hr & ->) | (Hri & Hr & rs & ra & rb & rc & _ & ->)]];
    rewrite ?display_on_count_app, Hnone; cbn; repeat split; intros; lia.
Qed.

Lemma st7703_enable_display_on_witness :
  let s1 := boot (both_rails true p0500063b_desc) third_write_fails in
  let s2 := boot (both_rails true p0500063b_desc) display_on_fails in
  display_on_count (since s1 (snd (st7703_enable s1))) = 0%nat /\
  display_on_count (since s2 (snd (st7703_enable s2))) = 1%nat.
Proof.
  intros s1 s2. split.
  - apply (proj1 (proj2 (st7703_enable_display_on s1))). vm_compute. reflexivity.
  - apply (proj2 (proj2 (st7703_enable_display_on s2))). vm_compute. reflexivity.
Defined.

(** X11: [st7703_enable] does not look at the lifecycle: on a machine that
    differs only in the [prepared] flag it returns the same value and
    makes the same calls with the same answers, and it hands the flag back
    as it found it. *)
Theorem st7703_enable_ignores_prepared (s : state) (b : bool) :
  let s' := with_ctx (mark_prepared b (ctx s)) s in
  fst (st7703_enable s') = fst (st7703_enable s) /\
  since s' (snd (st7703_enable s')) = since s (snd (st7703_enable s)) /\
  prepared (ctx (snd (st7703_enable s'))) = b.
Proof.
  open_state s. unfold with_ctx, mark_prepared.
  cbn [ctx respond trace dmesg vcc iovcc prepared dsi desc].
  unfold st7703_enable, since. run_c.
  match goal with
  | |- context [ call_init_sequence ?f
                   {| ctx := ?cA; respond := ?r; trace := ?t; dmesg := ?d |} ] =>
      match goal with
      | |- context [ call_init_sequence f
                       {| ctx := ?cB; respond := r; trace := t; dmesg := d |} ] =>
          assert_fails (constr_eq cA cB);
          pose proof (init_sequence_ctx f
                        {| ctx := cB; respond := r; trace := t; dmesg := d |}
                        cA) as E;
          unfold with_ctx in E; cbn [ctx respond trace dmesg] in E;
          rewrite E; clear E;
          destruct (call_init_sequence f
                      {| ctx := cB; respond := r; trace := t; dmesg := d |})
            as [ri [c1 r1 t1 d1]]
      end
  end.
  run_c.
  destruct (ri <? 0); run_c; [repeat split |].
  destruct (_ <? 0); run_c; repeat split.
Qed.

(** X12: [allpixelson_set], whatever the four drm_panel entry points do.
    If the all-pixels-on write fails, its error is returned at once:
    nothing else is called, there is no sleep and the panel is not cycled.
    If the write succeeds the function returns 0, whatever the disable,
    unprepare, prepare and enable that follow return. *)
Theorem allpixelson_set_result (d u p e : cfun) (val : Z) (s : state) :
  let r := answer s [] (mipi_dsi_generic_write [ST7703_CMD_ALL_PIXEL_ON]) in
  (r < 0 ->
   fst (allpixelson_set d u p e val s) = r /\
   since s (snd (allpixelson_set d u p e val s))
   = [Ev (mipi_dsi_generic_write [ST7703_CMD_ALL_PIXEL_ON]) r] /\
   ctx (snd (allpixelson_set d u p e val s)) = ctx s) /\
  (0 <= r -> fst (allpixelson_set d u p e val s) = 0).
Proof.
  open_state s. unfold answer. cbn [trace respond]. rewrite app_nil_r.
  unfold allpixelson_set. run_c.
  destruct (Z.ltb_spec
              (respond0 trace0 (mipi_dsi_generic_write [ST7703_CMD_ALL_PIXEL_ON])) 0)
    as [Hneg | Hpos]; run_c.
  - split; [| lia]. intros _. repeat split. solve_since.
  - split; [lia |]. intros _.
    destruct (d _) as [rd sd]; run_c. destruct (u _) as [ru su]; run_c.
    destruct (p _) as [rp sp]; run_c. destruct (e _) as [re se]; run_c.
    reflexivity.
Qed.

Lemma allpixelson_set_result_witness :
  let s := boot (both_rails true p0500063b_desc) all_fail in
  let ok := boot (both_rails true p0500063b_desc) all_ok in
  (fst (allpixelson_set st7703_disable st7703_unprepare st7703_prepare
          st7703_enable 2 s) = - EIO /\
   since s (snd (allpixelson_set st7703_disable st7703_unprepare
                   st7703_prepare st7703_enable 2 s))
   = [Ev (mipi_dsi_generic_write [ST7703_CMD_ALL_PIXEL_ON]) (- EIO)] /\
   ctx (snd (allpixelson_set st7703_disable st7703_unprepare
               st7703_prepare st7703_enable 2 s)) = ctx s) /\
  fst (allpixelson_set st7703_disable st7703_unprepare st7703_prepare
         st7703_enable 2 ok) = 0.
Proof.
  intros s ok. split.
  - apply (proj1 (allpixelson_set_result st7703_disable st7703_unprepare
                    st7703_prepare st7703_enable 2 s)).
    reflexivity.
  - apply (proj2 (allpixelson_set_result st7703_disable st7703_unprepare
                    st7703_prepare st7703_enable 2 ok)).
    vm_compute. discriminate.
Defined.

(** ** The machine across calls *)

Lemma st7703_enable_ctx (s : state) :
  ctx (snd (st7703_enable s)) = with_lpm (ctx s) /\
  respond (snd (st7703_enable s)) = respond s.
Proof.
  open_state s. unfold st7703_enable, with_lpm. run_c.
  match goal with
  | |- context [ call_init_sequence ?f ?s0 ] =>
      destruct (init_sequence_run f s0) as (evs & ri & logs & E & Hrun)
  end.
  cbn [ctx respond trace dmesg] in E. rewrite !E. run_c.
  destruct (ri <? 0); run_c; [split; reflexivity |].
  destruct (_ <? 0); run_c; split; reflexivity.
Qed.

(** X13: every call of [st7703_enable], failed or not, leaves the
    low-power-mode flag set in [dsi->mode_flags], keeps every flag that
    was set, and changes nothing else in the panel object. *)
Theorem st7703_enable_sets_lpm (s : state) :
  ctx (snd (st7703_enable s)) = with_lpm (ctx s) /\
  In MIPI_DSI_MODE_LPM (mode_flags (dsi (ctx (snd (st7703_enable s))))) /\
  (forall f, In f (mode_flags (dsi (ctx s))) ->
             In f (mode_flags (dsi (ctx (snd (st7703_enable s)))))) /\
  (In MIPI_DSI_MODE_LPM (mode_flags (dsi (ctx s))) ->
   ctx (snd (st7703_enable s)) = ctx s).
Proof.
  destruct (st7703_enable_ctx s) as [-> _].
  unfold with_lpm, flags_or. cbn [dsi mode_flags].
  destruct (existsb (mode_flag_eqb MIPI_DSI_MODE_LPM) (mode_flags (dsi (ctx s))))
    eqn:Eb.
  - repeat split; auto.
    + apply existsb_exists in Eb as (f & Hin & Hf). destruct f; try discriminate Hf.
      exact Hin.
    + intros _. destruct s as [[v io p [m] de] r t dm]. reflexivity.
  - repeat split.
    + apply in_or_app. right. left. reflexivity.
    + intros f Hin. apply in_or_app. left. exact Hin.
    + intros Hin. exfalso.
      assert (existsb (mode_flag_eqb MIPI_DSI_MODE_LPM)
                      (mode_flags (dsi (ctx s))) = true)
        by (apply existsb_exists; exists MIPI_DSI_MODE_LPM; auto).
      congruence.
Qed.

Lemma st7703_enable_sets_lpm_witness :
  let s := boot (both_rails true p0500063b_desc) all_fail in
  let s' := snd (st7703_enable s) in
  ctx (snd (st7703_enable s')) = ctx s'.
Proof.
  intros s s'.
  apply (proj2 (proj2 (proj2 (st7703_enable_sets_lpm s')))).
  exact (proj1 (proj2 (st7703_enable_sets_lpm s))).
Defined.

Lemma callback_frame (f : drm_panel_func) (s : state) :
  frame s (snd (st7703_drm_funcs f s)).
Proof.
  unfold frame. destruct f; cbn [st7703_drm_funcs].
  - open_state s. unfold st7703_disable, since. run_c.
    destruct (_ <? 0); run_c; destruct (_ <? 0); run_c;
      rewrite <- ?app_assoc; rewrite skipn_length_app; repeat split.
  - open_state s. unfold st7703_unprepare, since. run_c.
    destruct prepared0; run_c.
    + destruct (IS_ERR_OR_NULL iovcc0); run_c;
        rewrite <- ?app_assoc; rewrite skipn_length_app; repeat split.
    + rewrite skipn_all, app_nil_r. repeat split.
  - open_state s. unfold st7703_prepare, since. run_c.
    destruct prepared0; run_c;
      [rewrite skipn_all, app_nil_r; repeat split |].
    destruct (IS_ERR_OR_NULL vcc0); run_c.
    + destruct (IS_ERR_OR_NULL iovcc0); run_c;
        [rewrite <- ?app_assoc; rewrite skipn_length_app; repeat split |].
      destruct (_ <? 0); run_c;
        rewrite <- ?app_assoc; rewrite skipn_length_app; repeat split.
    + destruct (_ <? 0); run_c;
        [rewrite <- ?app_assoc; rewrite skipn_length_app; repeat split |].
      destruct (IS_ERR_OR_NULL iovcc0); run_c;
        [rewrite <- ?app_assoc; rewrite skipn_length_app; repeat split |].
      destruct (_ <? 0); run_c;
        rewrite <- ?app_assoc; rewrite skipn_length_app; repeat split.
  - destruct (st7703_enable_ctx s) as [-> ->].
    destruct (st7703_enable_shape s) as (s0 & Ht & _).
    repeat split. exact Ht.
Qed.

Lemma frame_refl (s : state) : frame s s.
Proof.
  unfold frame. rewrite since_refl, app_nil_r. repeat split.
Qed.

Lemma frame_trans (s s1 s2 : state) :
  frame s s1 -> frame s1 s2 ->
  frame s s2 /\ since s s2 = since s s1 ++ since s1 s2.
Proof.
  unfold frame. intros (Hv & Hio & Hd & Hr & Ht) (Hv' & Hio' & Hd' & Hr' & Ht').
  assert (E : since s s2 = since s s1 ++ since s1 s2).
  { apply since_app. rewrite Ht', Ht at 1. now rewrite app_assoc. }
  split; [| exact E].
  repeat split; try congruence.
  rewrite E, app_assoc, <- Ht. exact Ht'.
Qed.

Lemma after_calls_frame (fs : list drm_panel_func) (s : state) :
  frame s (after_calls fs s).
Proof.
  revert s. induction fs as [| f fs IH]; intros s; [apply frame_refl |].
  cbn [after_calls].
  exact (proj1 (frame_trans _ _ _ (callback_frame f s) (IH _))).
Qed.

Lemma no_power_calls_not_disable (evs : list event) (e : event) (p : regulator_ptr) :
  no_power_calls evs = true -> In e evs -> ev_call e <> regulator_disable p.
Proof.
  unfold no_power_calls. intros Hall Hin Hc.
  pose proof (proj1 (forallb_forall _ _) Hall e Hin) as He.
  cbv beta in He. rewrite Hc in He. discriminate He.
Qed.

(** Within one callback the primary rail is disabled only after a failed
    enable of the secondary rail. *)
Lemma callback_vcc_disable (f : drm_panel_func) (s : state) (a b : supply) :
  vcc (ctx s) = REG a -> iovcc (ctx s) = REG b -> a <> b ->
  forall e, In e (since s (snd (st7703_drm_funcs f s))) ->
            ev_call e = regulator_disable (REG a) ->
            exists e', In e' (since s (snd (st7703_drm_funcs f s))) /\
                       ev_call e' = regulator_enable (REG b) /\ ev_ret e' < 0.
Proof.
  intros Hv Hio Hab e. destruct f; cbn [st7703_drm_funcs].
  - intros Hin Hc. exfalso.
    exact (no_power_calls_not_disable _ _ _
             (proj2 (proj2 (st7703_disable_extends s))) Hin Hc).
  - open_state s. subst. unfold st7703_unprepare, since. run_c.
    destruct prepared0; run_c.
    + rewrite <- ?app_assoc. rewrite skipn_length_app. cbn [app In].
      intros [<- | [<- | [<- | []]]] Hc; try discriminate Hc.
      injection Hc as Hc. congruence.
    + rewrite skipn_all. intros [].
  - open_state s. subst. unfold st7703_prepare, since. run_c.
    destruct prepared0; run_c; [rewrite skipn_all; intros [] |].
    destruct (Z.ltb_spec (respond0 trace0 (regulator_enable (REG a))) 0);
      run_c.
    + rewrite skipn_length_app. intros [<- | []] Hc. discriminate Hc.
    + match goal with
      | |- context [ ?r <? 0 ] => destruct (Z.ltb_spec r 0)
      end; run_c; rewrite <- ?app_assoc; rewrite skipn_length_app; cbn [app].
      * intros _ _. eexists. split; [right; left; reflexivity |].
        split; [reflexivity | assumption].
      * cbn [In]. intros Hin Hc.
        repeat (destruct Hin as [<- | Hin]; [discriminate Hc |]).
        destruct Hin.
  - intros Hin Hc. exfalso.
    exact (no_power_calls_not_disable _ _ _ (st7703_enable_no_power s) Hin Hc).
Qed.

(** X14: over any sequence of calls of the four callbacks, on a panel
    with two distinct rails, [regulator_disable] is called on the primary
    rail only in a run that also holds a failed enable of the secondary
    rail (the rollback of [st7703_prepare]).  With regulators that work,
    the driver never switches the primary rail off, however often the
    panel is cycled. *)
Theorem vcc_disabled_only_on_rollback
        (fs : list drm_panel_func) (s : state) (a b : supply) :
  vcc (ctx s) = REG a -> iovcc (ctx s) = REG b -> a <> b ->
  forall e, In e (since s (after_calls fs s)) ->
            ev_call e = regulator_disable (REG a) ->
            exists e', In e' (since s (after_calls fs s)) /\
                       ev_call e' = regulator_enable (REG b) /\ ev_ret e' < 0.
Proof.
  revert s. induction fs as [| f fs IH]; intros s Hv Hio Hab e.
  - cbn [after_calls]. rewrite since_refl. intros [].
  - cbn [after_calls].
    pose proof (callback_frame f s) as F1.
    pose proof (after_calls_frame fs (snd (st7703_drm_funcs f s))) as F2.
    destruct (frame_trans _ _ _ F1 F2) as [_ ->].
    destruct F1 as (Hv1 & Hio1 & _).
    intros Hin Hc. apply in_app_or in Hin as [Hin | Hin].
    + destruct (callback_vcc_disable f s a b Hv Hio Hab e Hin Hc)
        as (e' & Hin' & H').
      exists e'. split; [apply in_or_app; left; exact Hin' | exact H'].
    + destruct (IH (snd (st7703_drm_funcs f s))
                   (eq_trans Hv1 Hv) (eq_trans Hio1 Hio) Hab e Hin Hc)
        as (e' & Hin' & H').
      exists e'. split; [apply in_or_app; right; exact Hin' | exact H'].
Qed.

Lemma vcc_disabled_only_on_rollback_witness :
  let s := boot (both_rails false p0500063b_desc) iovcc_broken in
  let s' := after_calls [func_prepare; func_unprepare; func_prepare] s in
  exists e', In e' (since s s') /\
             ev_call e' = regulator_enable (REG iovcc_supply) /\
             ev_ret e' < 0.
Proof.
  intros s s'.
  apply (vcc_disabled_only_on_rollback
           [func_prepare; func_unprepare; func_prepare] s
           vcc_supply iovcc_supply eq_refl eq_refl)
    with (e := Ev (regulator_disable (REG vcc_supply)) 0).
  - discriminate.
  - vm_compute. right. right. left. reflexivity.
  - reflexivity.
Defined.
